(** * Chennai waste prediction: the [/predict] request pipeline of [app.py]

    A shallow embedding of [predict_segregation] and [predict_route]
    (src/app.py) together with the part of the Python runtime they rely on:
    exceptions, [print], [int()], [str()], [str.strip()], binary64 floats,
    [round] and the dictionary and data-frame operations.

    Conventions.
    - Python [int] is [Z]; a Python [float] is the exact rational it denotes
      (or an infinity, or NaN) and every arithmetic operation rounds its exact
      result to the nearest binary64 value, ties to even.  The two zeros are
      identified: no value computed by the pipeline distinguishes them.
    - A character of a [string] stands for a code point below 256.
    - [print] appends a line to the log carried by the monad [M].
    - The handler starts from the decoded body, [request.json]; the
      artifacts are arbitrary objects of the shapes the code uses, their
      methods may raise, and the regressor's output is taken as a float.

    Layout: [Py] and [App] hold the definitions, [PyFacts] the lemmas on
    rounding and floats, [AppFacts] the lemmas and theorems on app.py. *)

From Stdlib Require Import ZArith QArith Qreduction List String Ascii Bool Lia Lqa.
From Stdlib Require Import DecimalString.
From Stdlib Require Import PrimFloat FloatOps SpecFloat.
Import ListNotations.
Local Open Scope string_scope.
Local Open Scope Z_scope.

(* ================================================================= *)
(** ** Python runtime *)

Module Py.

(** Exception classes the pipeline can meet.  [OtherError] stands for any
    class that is neither listed here nor a subclass of a listed one
    (a missing file, an unpickling error, a failure inside an artifact). *)
Inductive exn : Type :=
| KeyError
| ValueError
| TypeError
| OverflowError
| ZeroDivisionError
| AttributeError
| OtherError (msg : string).

Inductive result (A : Type) : Type :=
| Ok (a : A)
| Raise (e : exn).
Arguments Ok {A} a.
Arguments Raise {A} e.

Definition rbind {A B} (r : result A) (f : A -> result B) : result B :=
  match r with
  | Ok a => f a
  | Raise e => Raise e
  end.

(* ----------------------------------------------------------------- *)
(** *** binary64 arithmetic *)

Inductive pyfloat : Type :=
| Fin (q : Q)
| Inf (neg : bool)
| NaN.

(** Nearest integer to [n / d], ties to even ([0 <= n], [0 < d]). *)
Definition rne (n d : Z) : Z :=
  let q := n / d in
  match (2 * (n mod d)) ?= d with
  | Lt => q
  | Gt => q + 1
  | Eq => if Z.even q then q else q + 1
  end.

(** [floor (log2 (n / d))] for positive [n] and [d]. *)
Definition floor_log2 (n d : Z) : Z :=
  if d <=? n then Z.log2 (n / d) else - Z.log2_up ((d + n - 1) / n).

(** The rational [m * 2 ^ e], in lowest terms. *)
Definition dyadic (m e : Z) : Q :=
  if 0 <=? e then inject_Z (m * 2 ^ e) else Qred (m # Z.to_pos (2 ^ (- e))).

(** Round the positive rational [n / d] to binary64: 53 significant bits,
    least exponent -1074 (gradual underflow); [None] when the rounded value
    is 2^1024 or more. *)
Definition round_pos (n d : Z) : option Q :=
  let e := Z.max (-1074) (floor_log2 n d - 52) in
  let m := rne (n * 2 ^ Z.max 0 (- e)) (d * 2 ^ Z.max 0 e) in
  if 2 ^ 1024 <=? m * 2 ^ Z.max 0 e then None else Some (dyadic m e).

Definition round_Q (q : Q) : option Q :=
  match Qnum q with
  | Z0 => Some 0%Q
  | Zpos n => round_pos (Zpos n) (Zpos (Qden q))
  | Zneg n => option_map Qopp (round_pos (Zpos n) (Zpos (Qden q)))
  end.

(** An arithmetic result: overflow gives an infinity of the result's sign. *)
Definition of_exact (q : Q) : pyfloat :=
  match round_Q q with
  | Some r => Fin r
  | None => Inf (Qnum q <? 0)
  end.

(** A float literal such as [0.7] is the binary64 value nearest to it. *)
Definition float_lit (n : Z) (d : positive) : pyfloat := of_exact (n # d).

(** [float(z)] for an [int]. *)
Definition float_of_int (z : Z) : result pyfloat :=
  match round_Q (inject_Z z) with
  | Some r => Ok (Fin r)
  | None => Raise OverflowError
  end.

(** [a < b]; false as soon as one side is NaN. *)
Definition float_lt (a b : pyfloat) : bool :=
  match a, b with
  | NaN, _ | _, NaN => false
  | Fin x, Fin y => match (x ?= y)%Q with Lt => true | _ => false end
  | Fin _, Inf s => negb s
  | Inf s, Fin _ => s
  | Inf s, Inf t => s && negb t
  end.

(** [a == b]. *)
Definition float_eqb (a b : pyfloat) : bool :=
  match a, b with
  | Fin x, Fin y => Qeq_bool x y
  | Inf s, Inf t => Bool.eqb s t
  | _, _ => false
  end.

Definition Qneg (q : Q) : bool := Qnum q <? 0.
Definition Qzero (q : Q) : bool := Qnum q =? 0.

(** [a * b]. *)
Definition float_mul (a b : pyfloat) : pyfloat :=
  match a, b with
  | NaN, _ | _, NaN => NaN
  | Fin x, Fin y => of_exact (x * y)
  | Fin x, Inf s | Inf s, Fin x =>
      if Qzero x then NaN else Inf (xorb s (Qneg x))
  | Inf s, Inf t => Inf (xorb s t)
  end.

(** [a / b]: Python raises on a zero divisor before dividing. *)
Definition float_truediv (a b : pyfloat) : result pyfloat :=
  match b with
  | Fin y =>
      if Qzero y then Raise ZeroDivisionError
      else match a with
           | Fin x => Ok (of_exact (x / y))
           | Inf s => Ok (Inf (xorb s (Qneg y)))
           | NaN => Ok NaN
           end
  | Inf _ =>
      match a with
      | Fin _ => Ok (Fin 0)
      | _ => Ok NaN
      end
  | NaN => Ok NaN
  end.

(** [int(x)] for a float: truncation toward zero. *)
Definition int_of_float (x : pyfloat) : result Z :=
  match x with
  | Fin q => Ok (Z.quot (Qnum q) (Zpos (Qden q)))
  | Inf _ => Raise OverflowError
  | NaN => Raise ValueError
  end.

(** Nearest integer to a rational, ties to even, either sign. *)
Definition rne_Q (q : Q) : Z :=
  Z.sgn (Qnum q) * rne (Z.abs (Qnum q)) (Zpos (Qden q)).

(** [round(x)]: the nearest [int], ties to even. *)
Definition round0 (x : pyfloat) : result Z :=
  match x with
  | Fin q => Ok (rne_Q q)
  | Inf _ => Raise OverflowError
  | NaN => Raise ValueError
  end.

(** [round(x, 2)]: the exact value is rounded to two decimals, ties to even,
    and that decimal is converted back to the nearest float; infinities and
    NaN round to themselves. *)
Definition round2 (x : pyfloat) : result pyfloat :=
  match x with
  | Fin q =>
      match round_Q (rne_Q (q * 100) # 100) with
      | Some r => Ok (Fin r)
      | None => Raise OverflowError
      end
  | _ => Ok x
  end.

(** [a / b] for two [int]s: the correctly rounded quotient. *)
Definition int_truediv (a b : Z) : result pyfloat :=
  match b with
  | Z0 => Raise ZeroDivisionError
  | Zpos p => match round_Q (a # p) with
              | Some r => Ok (Fin r)
              | None => Raise OverflowError
              end
  | Zneg p => match round_Q (- a # p) with
              | Some r => Ok (Fin r)
              | None => Raise OverflowError
              end
  end.

(** The value of a machine float of Rocq's kernel, to compare the model
    with the binary64 arithmetic of the hardware. *)
Definition of_prim (x : PrimFloat.float) : pyfloat :=
  match Prim2SF x with
  | S754_zero _ => Fin 0
  | S754_infinity s => Inf s
  | S754_nan => NaN
  | S754_finite s m e => Fin (dyadic (if s then Zneg m else Zpos m) e)
  end.

(** Quantities in which the rounding lemmas are stated. *)

(** [x / 2^e] for [x = n / d] is [snum n e / sden d e]. *)
Definition snum (n e : Z) : Z := n * 2 ^ Z.max 0 (- e).
Definition sden (d e : Z) : Z := d * 2 ^ Z.max 0 e.

(** The exponent and the mantissa chosen by [round_pos]. *)
Definition rexp (n d : Z) : Z := Z.max (-1074) (floor_log2 n d - 52).
Definition rmant (n d : Z) : Z := rne (snum n (rexp n d)) (sden d (rexp n d)).

(** The largest binary64 value, and the least value that rounds to 2^1024. *)
Definition MAXF : Z := (2 ^ 53 - 1) * 2 ^ 971.
Definition OVER : Z := 2 ^ 1024 - 2 ^ 970.

(* ----------------------------------------------------------------- *)
(** *** Strings *)

(** [str.isspace] on the code points below 256. *)
Definition isspace (c : ascii) : bool :=
  let n := Z.of_N (N_of_ascii c) in
  ((9 <=? n) && (n <=? 13)) || ((28 <=? n) && (n <=? 32))
  || (n =? 133) || (n =? 160).

(** The white space [int()] skips around a literal: as [isspace] but for
    the four separators 28 to 31. *)
Definition isspace_int (c : ascii) : bool :=
  let n := Z.of_N (N_of_ascii c) in
  ((9 <=? n) && (n <=? 13)) || (n =? 32) || (n =? 133) || (n =? 160).

Fixpoint dropwhile (p : ascii -> bool) (l : list ascii) : list ascii :=
  match l with
  | [] => []
  | c :: r => if p c then dropwhile p r else l
  end.

Definition strip_with (p : ascii -> bool) (s : string) : string :=
  string_of_list_ascii
    (rev (dropwhile p (rev (dropwhile p (list_ascii_of_string s))))).

(** [s.strip()]. *)
Definition strip (s : string) : string := strip_with isspace s.

Definition digit_of (c : ascii) : option Z :=
  let n := Z.of_N (N_of_ascii c) in
  if (48 <=? n) && (n <=? 57) then Some (n - 48) else None.

(** Decimal digits, single underscores allowed between two digits.
    [after_digit] tells whether the previous character was a digit. *)
Fixpoint parse_digits (s : list ascii) (acc : Z) (after_digit : bool)
  : option Z :=
  match s with
  | [] => if after_digit then Some acc else None
  | c :: r =>
      match digit_of c with
      | Some d => parse_digits r (10 * acc + d) true
      | None =>
          if (Ascii.eqb c "_") && after_digit
          then parse_digits r acc false
          else None
      end
  end.

(** [int(s)] for a string, base 10. *)
Definition int_of_str (s : string) : result Z :=
  let body := list_ascii_of_string (strip_with isspace_int s) in
  let parsed :=
    match body with
    | c :: r =>
        if Ascii.eqb c "-" then option_map Z.opp (parse_digits r 0 false)
        else if Ascii.eqb c "+" then parse_digits r 0 false
        else parse_digits body 0 false
    | [] => None
    end in
  match parsed with
  | Some z => Ok z
  | None => Raise ValueError
  end.

(** [str(z)] for an [int]. *)
Definition str_of_int (z : Z) : string := NilZero.string_of_int (Z.to_int z).

(* ----------------------------------------------------------------- *)
(** *** Values of a decoded JSON body *)

#[warnings="-register-all"]
Inductive json : Type :=
| JNull
| JBool (b : bool)
| JInt (z : Z)
| JFloat (x : pyfloat)
| JStr (s : string)
| JList (l : list json)
| JDict (kv : list (string * json)).

(** Truth value, as tested by [not data]. *)
Definition truthy (v : json) : bool :=
  match v with
  | JNull => false
  | JBool b => b
  | JInt z => negb (z =? 0)
  | JFloat x => negb (float_eqb x (Fin 0))
  | JStr s => negb (String.eqb s "")
  | JList l => match l with [] => false | _ => true end
  | JDict kv => match kv with [] => false | _ => true end
  end.

Fixpoint assoc {A} (kv : list (string * A)) (k : string) : option A :=
  match kv with
  | [] => None
  | (k', v) :: r => if String.eqb k' k then Some v else assoc r k
  end.

(** [data.get(key, default)]; only a [dict] has the method. *)
Definition get (data : json) (key : string) (default : json) : result json :=
  match data with
  | JDict kv => Ok (match assoc kv key with Some v => v | None => default end)
  | _ => Raise AttributeError
  end.

(** [int(v)]. *)
Definition int (v : json) : result Z :=
  match v with
  | JInt z => Ok z
  | JBool b => Ok (if b then 1 else 0)
  | JFloat x => int_of_float x
  | JStr s => int_of_str s
  | JNull | JList _ | JDict _ => Raise TypeError
  end.

(** [str(v)].  The text Python prints for a float, a list or a dict is not
    modelled: it is whatever [repr] gives. *)
Definition str (repr : json -> string) (v : json) : string :=
  match v with
  | JStr s => s
  | JNull => "None"
  | JBool b => if b then "True" else "False"
  | JInt z => str_of_int z
  | _ => repr v
  end.

End Py.

(* ================================================================= *)
(** ** app.py *)

Module App.
Import Py.

(** A value stored in the one-row data frame: the frame is built from
    floats, the encoded zone and the [int]s [1] and [0]. *)
Inductive cell : Type :=
| CInt (z : Z)
| CFloat (x : pyfloat).

(** The one-row [pd.DataFrame]: its columns in order, each with its value. *)
Definition DataFrame : Type := list (string * cell).

(** Lines written by [print], in the order of the source. *)
Inductive logline : Type :=
| LogLoading                                   (* "Loading model and encoders..." *)
| LogExpectedColumns (cols : list string)      (* "Expected columns: ..." *)
| LogEncodedZone (zone_name : string) (zone_id : Z)
| LogZoneError (e : exn)                       (* "Error encoding zone: ..." *)
| LogInputColumns (cols : list string)         (* "Input DataFrame columns:" *)
| LogInputValues (vals : list cell)            (* "Input values:" *)
| LogPrediction (pred : pyfloat)               (* "Prediction: ..." *)
| LogPredictError (e : exn)                    (* "Error in predict_segregation: ..." *)
| LogPredictionError (e : exn)                 (* "Prediction error: ..." *)
| LogUnexpected (e : exn).                     (* "Unexpected error: ..." *)

(* ----------------------------------------------------------------- *)
(** *** Computations that print and may raise *)

Definition M (A : Type) : Type := (list logline * result A)%type.

Definition ret {A} (a : A) : M A := ([], Ok a).
Definition raise {A} (e : exn) : M A := ([], Raise e).
Definition lift {A} (r : result A) : M A := ([], r).
Definition print (l : logline) : M unit := ([l], Ok tt).

Definition bind {A B} (m : M A) (f : A -> M B) : M B :=
  match m with
  | (l1, Ok a) => let (l2, r) := f a in ((l1 ++ l2)%list, r)
  | (l1, Raise e) => (l1, Raise e)
  end.

(** [try: m  except Exception as e: h e]. *)
Definition try_except {A} (m : M A) (h : exn -> M A) : M A :=
  match m with
  | (l1, Ok a) => (l1, Ok a)
  | (l1, Raise e) => let (l2, r) := h e in ((l1 ++ l2)%list, r)
  end.

(** [try: m  except (ValueError, TypeError) as e: h e]. *)
Definition try_except_value_type {A} (m : M A) (h : exn -> M A) : M A :=
  try_except m (fun e =>
    match e with
    | ValueError | TypeError => h e
    | _ => raise e
    end).

Declare Scope py_scope.
Delimit Scope py_scope with py.
Notation "x <- m ;; k" := (bind m (fun x => k))
  (at level 61, m at next level, right associativity) : py_scope.
Notation "m ;; k" := (bind m (fun _ => k))
  (at level 61, right associativity) : py_scope.
Local Open Scope py_scope.

(* ----------------------------------------------------------------- *)
(** *** The artifacts under [saved_models/] *)

(** The fitted [LabelEncoder]: [le_zone.classes_] and
    [le_zone.transform([name])[0]]. *)
Record LabelEncoder : Type := {
  classes_ : list string;
  le_transform : string -> result Z
}.

(** The fitted scaler: [scaler.transform(input_df)]. *)
Record Scaler : Type := {
  sc_transform : DataFrame -> result (list pyfloat)
}.

(** The regressor: [model.predict(input_scaled)[0]], taken as a float. *)
Record Model : Type := {
  predict : list pyfloat -> result pyfloat
}.

(** What each load of [predict_segregation] yields: the object, or the
    exception raised by [joblib.load] or [pd.read_csv]. *)
Record saved_models : Type := {
  XGBoost_pkl : result Model;
  zone_encoder_pkl : result LabelEncoder;
  scaler_pkl : result Scaler;
  columns_csv : result (list string)
}.

(* ----------------------------------------------------------------- *)
(** *** [predict_segregation] (lines 29-98) *)

(** The [input_data] dictionary: the four keys the function reads, each
    possibly absent, holding the kinds of value [predict_route] stores. *)
Record input_data : Type := {
  Total_Households : option Z;
  Covered_Households : option Z;
  Zone_Name : option string;
  Ward_No : option Z
}.

(** [d[key]]. *)
Definition getitem {A} (v : option A) : result A :=
  match v with
  | Some a => Ok a
  | None => Raise KeyError
  end.

(** [d.get(key, default)]. *)
Definition get_default {A} (v : option A) (default : A) : A :=
  match v with
  | Some a => a
  | None => default
  end.

(** Lines 52-58: the zone code, [0] for an unseen zone or a failing
    encoder. *)
Definition encode_zone (le_zone : LabelEncoder) (zone_name : string) : M Z :=
  try_except
    (zone_id <- lift (if existsb (String.eqb zone_name) (classes_ le_zone)
                      then le_transform le_zone zone_name
                      else Ok 0) ;;
     print (LogEncodedZone zone_name zone_id) ;;
     ret zone_id)
    (fun e => print (LogZoneError e) ;; ret 0).

(** Lines 61-66. *)
Definition input_features (total_households covered_households : pyfloat)
                          (zone_id ward : Z) : DataFrame :=
  [ ("Total_Households", CFloat total_households);
    ("Covered_Households", CFloat covered_households);
    ("Zone_ID", CInt zone_id);
    ("Ward No.", CInt ward) ].

(** [col in input_df.columns]. *)
Definition has_column (df : DataFrame) (col : string) : bool :=
  existsb (String.eqb col) (map fst df).

(** Lines 72-74: every expected column not yet in the frame is appended
    with the value [0]. *)
Definition fill_missing (df : DataFrame) (expected_columns : list string)
  : DataFrame :=
  fold_left
    (fun df col => if has_column df col then df else (df ++ [(col, CInt 0)])%list)
    expected_columns df.

(** Line 76, [input_df[expected_columns]]: the listed columns in the listed
    order; [KeyError] on a label the frame lacks. *)
Fixpoint select_columns (df : DataFrame) (cols : list string)
  : result DataFrame :=
  match cols with
  | [] => Ok []
  | c :: rest =>
      rbind (getitem (assoc df c)) (fun v =>
      rbind (select_columns df rest) (fun r => Ok ((c, v) :: r)))
  end.

(** Line 88, [max(0, min(pred, covered_households))], then [float(...)].
    [min] keeps its first argument unless the second is smaller; [max]
    keeps [0] unless the other is greater. *)
Definition clamp (pred covered_households : pyfloat) : pyfloat :=
  let m := if float_lt covered_households pred
           then covered_households else pred in
  if float_lt (Fin 0) m then m else Fin 0.

(** The Feature Builder as the specification words it (4.2): one entry per
    name of the schema, in the schema's order, holding the value of the
    initial mapping, or [0] when the mapping has no such key; keys outside
    the schema do not appear.  [select_fill] relates it to lines 69-76. *)
Definition frame (features : DataFrame) (expected_columns : list string)
  : DataFrame :=
  map (fun c => (c, get_default (assoc features c) (CInt 0))) expected_columns.

(** What follows line 79 once the frame is built (lines 81-91). *)
Definition scale_and_predict (scaler : Scaler) (model : Model)
                             (input_df : DataFrame)
                             (covered_households : pyfloat)
  : list logline * result pyfloat :=
  match sc_transform scaler input_df with
  | Raise e => ([], Raise e)
  | Ok input_scaled =>
      match predict model input_scaled with
      | Raise e => ([], Raise e)
      | Ok pred => ([LogPrediction (clamp pred covered_households)],
                    Ok (clamp pred covered_households))
      end
  end.

(** The body of the [try] (lines 31-91). *)
Definition predict_segregation_try (sm : saved_models) (d : input_data)
  : M pyfloat :=
  print LogLoading ;;
  model <- lift (XGBoost_pkl sm) ;;
  le_zone <- lift (zone_encoder_pkl sm) ;;
  scaler <- lift (scaler_pkl sm) ;;
  expected_columns <- lift (columns_csv sm) ;;
  print (LogExpectedColumns expected_columns) ;;
  total_households <-
    lift (rbind (getitem (Total_Households d)) float_of_int) ;;
  covered_households <-
    lift (rbind (getitem (Covered_Households d)) float_of_int) ;;
  zone_name <- lift (rbind (getitem (Zone_Name d)) (fun s => Ok (strip s))) ;;
  zone_id <- encode_zone le_zone zone_name ;;
  let features :=
    input_features total_households covered_households zone_id
                   (get_default (Ward_No d) 1) in
  input_df <-
    lift (select_columns (fill_missing features expected_columns)
                         expected_columns) ;;
  print (LogInputColumns (map fst input_df)) ;;
  print (LogInputValues (map snd input_df)) ;;
  input_scaled <- lift (sc_transform scaler input_df) ;;
  pred <- lift (predict model input_scaled) ;;
  let pred := clamp pred covered_households in
  print (LogPrediction pred) ;;
  ret pred.

(** Lines 93-98: the fallback, 70% of the covered households. *)
Definition fallback (d : input_data) : M pyfloat :=
  covered <- lift (float_of_int (get_default (Covered_Households d) 0)) ;;
  ret (float_mul covered (float_lit 7 10)).

Definition predict_segregation (sm : saved_models) (d : input_data)
  : M pyfloat :=
  try_except (predict_segregation_try sm d)
             (fun e => print (LogPredictError e) ;; fallback d).

(* ----------------------------------------------------------------- *)
(** *** [predict_route] (lines 165-231) *)

Record prediction : Type := {
  segregation_rate : pyfloat;
  predicted_households : Z;
  model_used : string
}.

Record input_echo : Type := {
  total_households : Z;
  covered_households : Z;
  zone_name : string
}.

(** What the handler returns: the 200 body, or an error body with its
    status and, for "Prediction failed", the exception as details. *)
Inductive response : Type :=
| Success (p : prediction) (i : input_echo)
| Failure (status : Z) (error : string) (details : option exn).

(** The bodies the handler can answer with, by name. *)
Definition invalid_input : response := Failure 400 "Invalid input data" None.
Definition non_positive_total : response :=
  Failure 400 "Total households must be greater than 0" None.
Definition covered_out_of_range : response :=
  Failure 400 "Covered households must be between 0 and total" None.
Definition no_input : response := Failure 400 "No input data provided" None.
Definition prediction_failed (e : exn) : response :=
  Failure 500 "Prediction failed" (Some e).

Definition success (rate : pyfloat) (predicted total covered : Z)
                   (zone_name : string) : response :=
  Success {| segregation_rate := rate;
             predicted_households := predicted;
             model_used := "XGBoost" |}
          {| total_households := total;
             covered_households := covered;
             zone_name := zone_name |}.

Definition unexpected_error : response :=
  Failure 500 "An unexpected error occurred" None.

(** [int(data.get(key, 0))] on a dictionary. *)
Definition field_int (kv : list (string * json)) (key : string) : result Z :=
  int (match assoc kv key with Some v => v | None => JInt 0 end).

(** What the [except (ValueError, TypeError)] of line 183 does with [e]. *)
Definition on_conversion_error (e : exn) : M (response + Z * Z * string) :=
  match e with
  | ValueError | TypeError => ([], Ok (inl invalid_input))
  | _ => ([], Raise e)
  end.

(** Log lines a run can print before it reaches the frame. *)
Definition early (l : list logline) : Prop :=
  forall x, In x l -> x = LogLoading \/ exists cs, x = LogExpectedColumns cs.

(** The two lines that print the frame (lines 78-79). *)
Definition is_frame_line (x : logline) : bool :=
  match x with
  | LogInputColumns _ | LogInputValues _ => true
  | _ => false
  end.

(** [input_data] with another ['Zone_Name']. *)
Definition set_zone (d : input_data) (zone_name : string) : input_data :=
  {| Total_Households := Total_Households d;
     Covered_Households := Covered_Households d;
     Zone_Name := Some zone_name;
     Ward_No := Ward_No d |}.

(** A response without the echo of its input. *)
Definition answer (r : response) : prediction + Z * string * option exn :=
  match r with
  | Success p _ => inl p
  | Failure status error details => inr (status, error, details)
  end.

Section Route.

(** [_unique_zones]: the zone names of Data.csv, read when the module is
    imported (lines 17-24). *)
Variable _unique_zones : list string.

(** Python's text for a float, a list or a dict (see [Py.str]). *)
Variable repr : json -> string.

(** [str(data.get("zone_name", "")).strip()] on a dictionary. *)
Definition field_zone (kv : list (string * json)) : string :=
  strip (str repr (match assoc kv "zone_name" with
                   | Some v => v
                   | None => JStr ""
                   end)).

(** Lines 173-184: the fields read and checked.  The result is either the
    rejection to return or the three values. *)
Definition validate (data : json) : M (response + Z * Z * string) :=
  try_except_value_type
    (total <- lift (rbind (get data "total_households" (JInt 0)) int) ;;
     covered <- lift (rbind (get data "covered_households" (JInt 0)) int) ;;
     zone_name <- lift (rbind (get data "zone_name" (JStr ""))
                              (fun v => Ok (strip (str repr v)))) ;;
     if total <=? 0 then
       ret (inl (Failure 400 "Total households must be greater than 0" None))
     else if (covered <? 0) || (total <? covered) then
       ret (inl (Failure 400
                   "Covered households must be between 0 and total" None))
     else ret (inr (total, covered, zone_name)))
    (fun _ => ret (inl (Failure 400 "Invalid input data" None))).

(** Lines 186-190. *)
Definition default_zone (zone_name : string) : string :=
  if String.eqb zone_name "" then
    match _unique_zones with
    | first :: _ => first
    | [] => "Unknown"
    end
  else zone_name.

(** Lines 193-198. *)
Definition route_input (total covered : Z) (zone_name : string)
  : input_data :=
  {| Total_Households := Some total;
     Covered_Households := Some covered;
     Zone_Name := Some zone_name;
     Ward_No := Some 1 |}.

(** Line 205. *)
Definition rate (pred_count : pyfloat) (total : Z) : result pyfloat :=
  if 0 <? total then
    rbind (float_of_int total) (fun t =>
    rbind (float_truediv pred_count t) (fun r =>
    rbind (float_of_int 100) (fun h =>
    round2 (float_mul r h))))
  else Ok (Fin 0).

(** Lines 200-227. *)
Definition respond (sm : saved_models) (total covered : Z)
                   (zone_name : string) : M response :=
  try_except
    (pred_count <- predict_segregation sm
                     (route_input total covered zone_name) ;;
     segregation_rate <- lift (rate pred_count total) ;;
     predicted <- lift (int_of_float pred_count) ;;
     ret (Success {| segregation_rate := segregation_rate;
                     predicted_households := predicted;
                     model_used := "XGBoost" |}
                  {| total_households := total;
                     covered_households := covered;
                     zone_name := zone_name |}))
    (fun e => print (LogPredictionError e) ;;
              ret (Failure 500 "Prediction failed" (Some e))).

Definition predict_route (sm : saved_models) (data : json) : M response :=
  try_except
    (if negb (truthy data) then
       ret (Failure 400 "No input data provided" None)
     else
       v <- validate data ;;
       match v with
       | inl rejection => ret rejection
       | inr (total, covered, zone_name) =>
           respond sm total covered (default_zone zone_name)
       end)
    (fun e => print (LogUnexpected e) ;;
              ret (Failure 500 "An unexpected error occurred" None)).

End Route.

(* ----------------------------------------------------------------- *)
(** *** The formulas of the specification *)

(** The rate as section 8 states it, from the integer of the response:
    [round(predicted_households / total_households * 100, 2)]. *)
Definition spec_rate (predicted total : Z) : result pyfloat :=
  rbind (int_truediv predicted total) (fun r =>
  round2 (float_mul r (Fin 100))).

(** The fallback count as section 8 states it:
    [round(0.7 * covered_households)]. *)
Definition spec_fallback (covered : Z) : result Z :=
  rbind (float_of_int covered) (fun fc =>
  round0 (float_mul (float_lit 7 10) fc)).

(** The substitute for a blank zone as section 4.1 states it: the first
    entry of the given catalog, or "Unknown". *)
Definition spec_substitute (catalog : list string) : string :=
  match catalog with
  | first :: _ => first
  | [] => "Unknown"
  end.

(* ----------------------------------------------------------------- *)
(** *** Sample artifacts and requests *)

Definition cell_float (c : cell) : pyfloat :=
  match c with
  | CFloat x => x
  | CInt z => match float_of_int z with Ok x => x | Raise _ => NaN end
  end.

(** A scaler that leaves every value as it is. *)
Definition identity_scaler : Scaler :=
  {| sc_transform := fun df => Ok (map (fun cv => cell_float (snd cv)) df) |}.

(** An encoder fitted on two zones. *)
Definition two_zone_encoder : LabelEncoder :=
  {| classes_ := ["Adyar"; "Anna Nagar"];
     le_transform := fun name =>
       if String.eqb name "Adyar" then Ok 0
       else if String.eqb name "Anna Nagar" then Ok 1
       else Raise ValueError |}.

(** An encoder whose [transform] raises on the one zone it lists. *)
Definition raising_encoder : LabelEncoder :=
  {| classes_ := ["Adyar"];
     le_transform := fun _ => Raise (OtherError "corrupt encoder") |}.

(** A regressor that predicts [pred] whatever its input. *)
Definition constant_model (pred : pyfloat) : Model :=
  {| predict := fun _ => Ok pred |}.

Definition sample_columns : list string :=
  ["Total_Households"; "Covered_Households"; "Zone_ID"; "Ward No.";
   "Population"].

Definition sample_models (pred : pyfloat) : saved_models :=
  {| XGBoost_pkl := Ok (constant_model pred);
     zone_encoder_pkl := Ok two_zone_encoder;
     scaler_pkl := Ok identity_scaler;
     columns_csv := Ok sample_columns |}.

(** [saved_models/] without its files. *)
Definition missing_models : saved_models :=
  {| XGBoost_pkl := Raise (OtherError "FileNotFoundError");
     zone_encoder_pkl := Raise (OtherError "FileNotFoundError");
     scaler_pkl := Raise (OtherError "FileNotFoundError");
     columns_csv := Raise (OtherError "FileNotFoundError") |}.

Definition request_fields (total covered : Z) (zone : string)
  : list (string * json) :=
  [("total_households", JInt total);
   ("covered_households", JInt covered);
   ("zone_name", JStr zone)].

Definition request (total covered : Z) (zone : string) : json :=
  JDict (request_fields total covered zone).

Definition no_repr (v : json) : string := "".

(* ----------------------------------------------------------------- *)
(** *** The zones of Data.csv (lines 17-24) *)






(* ----------------------------------------------------------------- *)
(** *** [health_check] (lines 316-359) *)

Definition required_files : list string :=
  ["saved_models/XGBoost.pkl"; "saved_models/zone_encoder.pkl";
   "saved_models/scaler.pkl"; "saved_models/columns.csv"; "Data.csv"].

Definition endpoints : list string :=
  ["/predict - POST - Make predictions";
   "/dashboard - GET - Get dashboard data";
   "/health - GET - Health check"].

(** The two bodies of the route: 200 with the status "healthy", or 500 with
    the status "error".  The outer [except] of line 355 is never entered:
    nothing in the body raises outside the inner [try]. *)
Inductive health : Type :=
| Healthy (status : string) (data_loaded : bool) (api_version : string)
          (endpoints : list string)
| Unhealthy (status message : string) (missing_files : list string).

(** [path_exists] is [os.path.exists]; [data_readable] tells whether
    [pd.read_csv(DATA_FILE, nrows=1)] returns. *)
Definition health_check (path_exists : string -> bool) (data_readable : bool)
  : health :=
  let missing_files := filter (fun f => negb (path_exists f)) required_files in
  match missing_files with
  | _ :: _ => Unhealthy "error" "Required files missing" missing_files
  | [] => Healthy "healthy" data_readable "1.0" endpoints
  end.

(** A load of a file that does not exist raises. *)
Definition absent_files_fail (path_exists : string -> bool)
                             (sm : saved_models) : Prop :=
  (path_exists "saved_models/XGBoost.pkl" = false ->
   exists e, XGBoost_pkl sm = Raise e) /\
  (path_exists "saved_models/zone_encoder.pkl" = false ->
   exists e, zone_encoder_pkl sm = Raise e) /\
  (path_exists "saved_models/scaler.pkl" = false ->
   exists e, scaler_pkl sm = Raise e) /\
  (path_exists "saved_models/columns.csv" = false ->
   exists e, columns_csv sm = Raise e).

(* ----------------------------------------------------------------- *)
(** *** [dashboard_route]: the header check and the city rates *)









(** Lines 296-302: a city rate from two of the [int]s of [city_totals];
    the [int] [0] when the total is not positive. *)
Definition city_rate (part total : Z) : result cell :=
  if 0 <? total then
    rbind (int_truediv part total) (fun r =>
    rbind (round2 (float_mul r (Fin 100))) (fun x => Ok (CFloat x)))
  else Ok (CInt 0).

(* ----------------------------------------------------------------- *)
(** *** Artifacts that load and answer *)


(* ----------------------------------------------------------------- *)
(** *** Sample files *)



(** A deployment where only Data.csv is in place. *)
Definition only_data_csv (f : string) : bool := String.eqb f "Data.csv".

End App.

(* ================================================================= *)
(** ** Facts about the runtime model *)

Module PyFacts.
Import Py.

(* ----------------------------------------------------------------- *)
(** *** Rounding to binary64 *)

(** [rne] is within one of the floor and never crosses an integer. *)
Lemma rne_floor n d : n / d <= rne n d <= n / d + 1.
Proof.
  unfold rne. destruct (2 * (n mod d) ?= d); try destruct (Z.even (n / d)); lia.
Qed.

Lemma rne_le n d M : 0 < d -> n <= M * d -> rne n d <= M.
Proof.
  intros Hd H. unfold rne.
  pose proof (Z.div_mod n d ltac:(lia)) as E.
  pose proof (Z.mod_pos_bound n d Hd) as B.
  assert (n / d <= M) by (apply Z.div_le_upper_bound; lia).
  destruct (Z.eq_dec (n / d) M) as [Q|Q].
  - assert (n mod d = 0) by nia.
    replace (2 * (n mod d) ?= d) with Lt; [lia|].
    symmetry. apply Z.compare_lt_iff. lia.
  - destruct (2 * (n mod d) ?= d); try destruct (Z.even (n / d)); lia.
Qed.

Lemma rne_ge n d M : 0 < d -> M * d <= n -> M <= rne n d.
Proof.
  intros Hd H.
  assert (M <= n / d) by (apply Z.div_le_lower_bound; lia).
  pose proof (rne_floor n d). lia.
Qed.

Lemma rne_le_half n d M : 0 < d -> 2 * n < (2 * M + 1) * d -> rne n d <= M.
Proof.
  intros Hd H. unfold rne.
  pose proof (Z.div_mod n d ltac:(lia)) as E.
  pose proof (Z.mod_pos_bound n d Hd) as B.
  assert (n / d < M + 1) by (apply Z.div_lt_upper_bound; nia).
  destruct (Z.eq_dec (n / d) M) as [Q|Q].
  - replace (2 * (n mod d) ?= d) with Lt; [lia|].
    symmetry. apply Z.compare_lt_iff. nia.
  - destruct (2 * (n mod d) ?= d); try destruct (Z.even (n / d)); lia.
Qed.

Lemma rne_exact n d : 0 < d -> rne (n * d) d = n.
Proof.
  intros Hd. unfold rne. rewrite Z.div_mul, Z.mod_mul by lia.
  destruct (Z.compare_spec (2 * 0) d); lia.
Qed.

Lemma pow2_pos k : 0 < 2 ^ Z.max 0 k.
Proof. apply Z.pow_pos_nonneg; lia. Qed.

Lemma pow2_split a b : 0 <= a -> 0 <= b -> 2 ^ (a + b) = 2 ^ a * 2 ^ b.
Proof. intros; apply Z.pow_add_r; lia. Qed.

Ltac max_norm :=
  repeat match goal with
  | |- context [Z.max 0 ?x] =>
      first [ rewrite (Z.max_l 0 x) by lia | rewrite (Z.max_r 0 x) by lia ]
  | H : context [Z.max 0 ?x] |- _ =>
      first [ rewrite (Z.max_l 0 x) in H by lia
            | rewrite (Z.max_r 0 x) in H by lia ]
  end.

(** [x < 2^(e+k)] iff [x / 2^e < 2^k]. *)
Lemma scaled_lt_shift n d e k :
  0 <= k ->
  (snum n (e + k) < sden d (e + k) <-> snum n e < 2 ^ k * sden d e).
Proof.
  intros Hk. unfold snum, sden.
  assert (0 < 2 ^ k) by (apply Z.pow_pos_nonneg; lia).
  destruct (Z_le_gt_dec 0 e) as [He|He].
  - max_norm. rewrite pow2_split by lia. change (2 ^ 0) with 1. split; nia.
  - destruct (Z_le_gt_dec (e + k) 0) as [Hs|Hs].
    + max_norm. change (2 ^ 0) with 1.
      assert (Hp : 2 ^ (- e) = 2 ^ (- (e + k)) * 2 ^ k)
        by (rewrite <- pow2_split by lia; f_equal; lia).
      rewrite Hp.
      assert (0 < 2 ^ (- (e + k))) by (apply Z.pow_pos_nonneg; lia).
      generalize dependent (2 ^ (- (e + k))). generalize dependent (2 ^ k).
      intros; split; nia.
    + max_norm. change (2 ^ 0) with 1.
      assert (Hp : 2 ^ k = 2 ^ (e + k) * 2 ^ (- e))
        by (rewrite <- pow2_split by lia; f_equal; lia).
      rewrite Hp.
      assert (0 < 2 ^ (- e)) by (apply Z.pow_pos_nonneg; lia).
      assert (0 < 2 ^ (e + k)) by (apply Z.pow_pos_nonneg; lia).
      generalize dependent (2 ^ (- e)). generalize dependent (2 ^ (e + k)).
      intros; split; nia.
Qed.

(** [2^(e+k) <= x] iff [2^k <= x / 2^e]. *)
Lemma scaled_le_shift n d e k :
  0 <= k ->
  (sden d (e + k) <= snum n (e + k) <-> 2 ^ k * sden d e <= snum n e).
Proof.
  intros Hk. pose proof (scaled_lt_shift n d e k Hk). lia.
Qed.

Lemma floor_log2_spec n d :
  0 < n -> 0 < d ->
  sden d (floor_log2 n d) <= snum n (floor_log2 n d) /\
  snum n (floor_log2 n d + 1) < sden d (floor_log2 n d + 1).
Proof.
  intros Hn Hd. unfold floor_log2, snum, sden.
  destruct (Z.leb_spec d n) as [Hle|Hlt].
  - assert (Hq : 0 < n / d) by (apply Z.div_str_pos; lia).
    pose proof (Z.log2_spec (n / d) Hq) as [Lo Hi].
    pose proof (Z.log2_nonneg (n / d)).
    pose proof (Z.div_mod n d ltac:(lia)) as E.
    pose proof (Z.mod_pos_bound n d Hd) as B.
    max_norm. change (2 ^ 0) with 1.
    rewrite <- Z.add_1_r in Hi. split; nia.
  - set (a := (d + n - 1) / n).
    assert (Ha : 1 < a).
    { unfold a. assert (2 <= (d + n - 1) / n)
        by (apply Z.div_le_lower_bound; lia). lia. }
    pose proof (Z.log2_up_spec a Ha) as [Lo Hi].
    assert (0 < Z.log2_up a) by (apply Z.log2_up_pos; lia).
    pose proof (Z.div_mod (d + n - 1) n ltac:(lia)) as E.
    pose proof (Z.mod_pos_bound (d + n - 1) n Hn) as B.
    fold a in E.
    max_norm. change (2 ^ 0) with 1.
    replace (- (- Z.log2_up a + 1)) with (Z.pred (Z.log2_up a)) by lia.
    replace (- - Z.log2_up a) with (Z.log2_up a) by lia.
    split; nia.
Qed.

Lemma snum_nonneg n e : 0 <= e -> snum n e = n.
Proof. intros; unfold snum; max_norm; change (2 ^ 0) with 1; lia. Qed.

Lemma sden_nonneg d e : 0 <= e -> sden d e = d * 2 ^ e.
Proof. intros; unfold sden; max_norm; reflexivity. Qed.

Lemma snum_nonpos n e : e <= 0 -> snum n e = n * 2 ^ (- e).
Proof. intros; unfold snum; max_norm; reflexivity. Qed.

Lemma sden_nonpos d e : e <= 0 -> sden d e = d.
Proof. intros; unfold sden; max_norm; change (2 ^ 0) with 1; lia. Qed.

Lemma scaled_lt_mono n d a b :
  0 < d -> a <= b -> snum n a < sden d a -> snum n b < sden d b.
Proof.
  intros Hd Hab H.
  replace b with (a + (b - a)) by lia.
  apply scaled_lt_shift; [lia|].
  assert (0 < 2 ^ (b - a)) by (apply Z.pow_pos_nonneg; lia).
  assert (0 < sden d a) by (unfold sden; pose proof (pow2_pos a); nia).
  nia.
Qed.

Lemma scaled_le_mono n d a b :
  0 < d -> b <= a -> sden d a <= snum n a -> sden d b <= snum n b.
Proof.
  intros Hd Hab H.
  destruct (Z_le_gt_dec (sden d b) (snum n b)) as [|C]; [assumption|].
  exfalso. assert (snum n a < sden d a); [|lia].
  apply scaled_lt_mono with (a := b); lia.
Qed.

Lemma round_pos_unfold n d :
  round_pos n d =
  if 2 ^ 1024 <=? rmant n d * 2 ^ Z.max 0 (rexp n d)
  then None else Some (dyadic (rmant n d) (rexp n d)).
Proof. reflexivity. Qed.

Lemma sden_pos d e : 0 < d -> 0 < sden d e.
Proof. intros; unfold sden; pose proof (pow2_pos e); nia. Qed.

Lemma rmant_nonneg n d : 0 < n -> 0 < d -> 0 <= rmant n d.
Proof.
  intros Hn Hd. unfold rmant. apply rne_ge.
  - apply sden_pos; assumption.
  - unfold snum. pose proof (pow2_pos (- rexp n d)). nia.
Qed.

Lemma rmant_le n d : 0 < n -> 0 < d -> rmant n d <= 2 ^ 53.
Proof.
  intros Hn Hd. unfold rmant.
  destruct (floor_log2_spec n d Hn Hd) as [_ Hi].
  set (e := rexp n d).
  set (k := Z.max 0 (floor_log2 n d + 1 - e)).
  assert (Hk : 0 <= k <= 53) by (unfold k, e, rexp; lia).
  assert (H1 : snum n (e + k) < sden d (e + k)).
  { apply scaled_lt_mono with (a := floor_log2 n d + 1); [lia| |assumption].
    unfold k; lia. }
  apply scaled_lt_shift in H1; [|lia].
  pose proof (sden_pos d e Hd).
  assert (2 ^ k <= 2 ^ 53) by (apply Z.pow_le_mono_r; lia).
  apply rne_le; [assumption|nia].
Qed.

Lemma rmant_ge n d :
  0 < n -> 0 < d -> -1074 <= floor_log2 n d - 52 -> 2 ^ 52 <= rmant n d.
Proof.
  intros Hn Hd Hnorm. unfold rmant.
  destruct (floor_log2_spec n d Hn Hd) as [Lo _].
  assert (He : rexp n d = floor_log2 n d - 52) by (unfold rexp; lia).
  rewrite He.
  replace (floor_log2 n d) with ((floor_log2 n d - 52) + 52) in Lo at 1 2 by lia.
  apply scaled_le_shift in Lo; [|lia].
  apply rne_ge; [apply sden_pos; assumption|lia].
Qed.

(** [2^a <= x] and [x < 2^b] force [a < b]. *)
Lemma scaled_bounds_lt n d a b :
  0 < d -> sden d a <= snum n a -> snum n b < sden d b -> a < b.
Proof.
  intros Hd Ha Hb.
  destruct (Z_lt_le_dec a b) as [|C]; [assumption|exfalso].
  pose proof (scaled_le_mono n d a b Hd C Ha). lia.
Qed.

Lemma big_pows :
  0 < 2 ^ 970 /\ 2 ^ 971 = 2 * 2 ^ 970 /\ 2 ^ 972 = 4 * 2 ^ 970 /\
  2 ^ 1024 = 2 ^ 54 * 2 ^ 970.
Proof.
  split; [|split; [|split]].
  - apply Z.pow_pos_nonneg; lia.
  - change 971 with (1 + 970). rewrite pow2_split by lia. reflexivity.
  - change 972 with (2 + 970). rewrite pow2_split by lia. reflexivity.
  - change 1024 with (54 + 970). rewrite pow2_split by lia. reflexivity.
Qed.

Lemma rexp_le_971 n d :
  0 < n -> 0 < d -> n < d * 2 ^ 1024 -> rexp n d <= 971.
Proof.
  intros Hn Hd H.
  destruct (floor_log2_spec n d Hn Hd) as [Lo _].
  assert (floor_log2 n d < 1024).
  { apply scaled_bounds_lt with (n := n) (d := d); [lia|assumption|].
    rewrite snum_nonneg, sden_nonneg by lia. lia. }
  unfold rexp. lia.
Qed.

Lemma round_pos_some n d :
  0 < n -> 0 < d -> n < d * OVER ->
  round_pos n d = Some (dyadic (rmant n d) (rexp n d)).
Proof.
  intros Hn Hd H. rewrite round_pos_unfold.
  destruct big_pows as (HA & E971 & E972 & E1024).
  unfold OVER in H. rewrite E1024 in H. change (2 ^ 54) with 18014398509481984 in *.
  assert (He : rexp n d <= 971).
  { apply rexp_le_971; try assumption. rewrite E1024. nia. }
  pose proof (rmant_nonneg n d Hn Hd) as M0.
  pose proof (rmant_le n d Hn Hd) as M1. change (2 ^ 53) with 9007199254740992 in M1.
  destruct (Z.leb_spec (2 ^ 1024) (rmant n d * 2 ^ Z.max 0 (rexp n d))) as [C|C];
    [exfalso|reflexivity].
  rewrite E1024 in C.
  destruct (Z.eq_dec (rexp n d) 971) as [E|E].
  - assert (rmant n d <= 9007199254740991).
    { unfold rmant. rewrite E. apply rne_le_half; [apply sden_pos; assumption|].
      rewrite snum_nonneg, sden_nonneg by lia. rewrite E971. nia. }
    rewrite E in C. change (Z.max 0 971) with 971 in C. rewrite E971 in C. nia.
  - assert (2 ^ Z.max 0 (rexp n d) <= 2 ^ 970)
      by (apply Z.pow_le_mono_r; lia).
    pose proof (pow2_pos (rexp n d)). nia.
Qed.

Lemma round_pos_mant_bound n d r :
  0 < n -> 0 < d -> round_pos n d = Some r ->
  r = dyadic (rmant n d) (rexp n d) /\
  0 <= rmant n d * 2 ^ Z.max 0 (rexp n d) <= MAXF.
Proof.
  intros Hn Hd. rewrite round_pos_unfold.
  destruct big_pows as (HA & E971 & E972 & E1024).
  pose proof (rmant_nonneg n d Hn Hd) as M0.
  pose proof (rmant_le n d Hn Hd) as M1. change (2 ^ 53) with 9007199254740992 in M1.
  pose proof (pow2_pos (rexp n d)) as PP.
  destruct (Z.leb_spec (2 ^ 1024) (rmant n d * 2 ^ Z.max 0 (rexp n d))) as [C|C];
    [discriminate|].
  intros [= <-]. split; [reflexivity|]. split; [nia|].
  unfold MAXF. rewrite E971. change (2 ^ 53) with 9007199254740992.
  rewrite E1024 in C. change (2 ^ 54) with 18014398509481984 in C.
  destruct (Z_le_gt_dec (rexp n d) 970) as [E|E].
  - assert (2 ^ Z.max 0 (rexp n d) <= 2 ^ 970)
      by (apply Z.pow_le_mono_r; lia).
    nia.
  - destruct (Z.eq_dec (rexp n d) 971) as [E'|E'].
    + rewrite E' in *. change (Z.max 0 971) with 971 in *. rewrite E971 in *. nia.
    + exfalso.
      assert (Hnorm : -1074 <= floor_log2 n d - 52) by (unfold rexp in E; lia).
      pose proof (rmant_ge n d Hn Hd Hnorm) as M2.
      change (2 ^ 52) with 4503599627370496 in M2.
      assert (2 ^ 972 <= 2 ^ Z.max 0 (rexp n d))
        by (apply Z.pow_le_mono_r; lia).
      rewrite E972 in *. nia.
Qed.

Local Open Scope Q_scope.

Lemma dyadic_spec m e :
  dyadic m e == (m * 2 ^ Z.max 0 e) # Z.to_pos (2 ^ Z.max 0 (- e)).
Proof.
  unfold dyadic. destruct (Z.leb_spec 0 e) as [H|H].
  - max_norm. change (Z.to_pos (2 ^ 0)) with 1%positive. reflexivity.
  - max_norm. change (2 ^ 0)%Z with 1%Z. rewrite Z.mul_1_r. apply Qred_correct.
Qed.

Lemma dyadic_le_int m e N :
  (m * 2 ^ Z.max 0 e <= N * 2 ^ Z.max 0 (- e))%Z -> dyadic m e <= inject_Z N.
Proof.
  intros H. rewrite dyadic_spec. unfold Qle; simpl.
  rewrite Z2Pos.id by apply pow2_pos. lia.
Qed.

Lemma dyadic_ge_int m e N :
  (N * 2 ^ Z.max 0 (- e) <= m * 2 ^ Z.max 0 e)%Z -> inject_Z N <= dyadic m e.
Proof.
  intros H. rewrite dyadic_spec. unfold Qle; simpl.
  rewrite Z2Pos.id by apply pow2_pos. lia.
Qed.

Lemma dyadic_pos m e : (0 < m)%Z -> 0 < dyadic m e.
Proof.
  intros H. rewrite dyadic_spec. unfold Qlt; simpl.
  pose proof (pow2_pos e). nia.
Qed.

Lemma round_pos_bounds n d r :
  (0 < n)%Z -> (0 < d)%Z -> round_pos n d = Some r ->
  0 <= r <= inject_Z MAXF.
Proof.
  intros Hn Hd H.
  destruct (round_pos_mant_bound n d r Hn Hd H) as (-> & B0 & B1).
  pose proof (pow2_pos (- rexp n d)).
  split.
  - change 0 with (inject_Z 0). apply dyadic_ge_int. lia.
  - apply dyadic_le_int. nia.
Qed.

Lemma rexp_nonpos n d :
  (0 < n)%Z -> (0 < d)%Z -> (n < 2 ^ 53 * d)%Z -> (rexp n d <= 0)%Z.
Proof.
  intros Hn Hd H.
  destruct (floor_log2_spec n d Hn Hd) as [Lo _].
  assert (floor_log2 n d < 53)%Z.
  { apply scaled_bounds_lt with (n := n) (d := d); [lia|assumption|].
    rewrite snum_nonneg, sden_nonneg by lia. lia. }
  unfold rexp. lia.
Qed.

(** A value below 2^53 never rounds across an integer above it. *)
Lemma round_pos_le_int n d N r :
  (0 < n)%Z -> (0 < d)%Z -> (n <= N * d)%Z -> (n < 2 ^ 53 * d)%Z ->
  round_pos n d = Some r -> r <= inject_Z N.
Proof.
  intros Hn Hd HN H53 H.
  destruct (round_pos_mant_bound n d r Hn Hd H) as (-> & _).
  pose proof (rexp_nonpos n d Hn Hd H53) as He.
  apply dyadic_le_int. unfold rmant.
  rewrite snum_nonpos, sden_nonpos by assumption. max_norm.
  change (2 ^ 0)%Z with 1%Z. rewrite Z.mul_1_r.
  pose proof (pow2_pos (- rexp n d)) as PP. max_norm.
  apply rne_le; [assumption|nia].
Qed.

Lemma round_pos_int_exact z r :
  (0 < z < 2 ^ 53)%Z -> round_pos z 1 = Some r -> r == inject_Z z.
Proof.
  intros Hz H.
  destruct (round_pos_mant_bound z 1 r ltac:(lia) ltac:(lia) H) as (-> & _).
  pose proof (rexp_nonpos z 1 ltac:(lia) ltac:(lia) ltac:(lia)) as He.
  rewrite dyadic_spec. unfold rmant.
  rewrite snum_nonpos, sden_nonpos by assumption.
  replace (z * 2 ^ (- rexp z 1))%Z with ((z * 2 ^ (- rexp z 1)) * 1)%Z at 1 by lia.
  rewrite rne_exact by lia. max_norm. change (2 ^ 0)%Z with 1%Z.
  unfold Qeq; simpl.
  pose proof (pow2_pos (- rexp z 1)) as PP. max_norm.
  rewrite Z2Pos.id by assumption. lia.
Qed.

Lemma round_pos_positive n d r :
  (0 < d <= n)%Z -> round_pos n d = Some r -> 0 < r.
Proof.
  intros Hd H.
  destruct (round_pos_mant_bound n d r ltac:(lia) ltac:(lia) H) as (-> & _).
  apply dyadic_pos.
  assert (0 <= floor_log2 n d)%Z.
  { unfold floor_log2. destruct (Z.leb_spec d n); [apply Z.log2_nonneg|lia]. }
  pose proof (rmant_ge n d ltac:(lia) ltac:(lia) ltac:(lia)) as M.
  change (2 ^ 52)%Z with 4503599627370496%Z in M. lia.
Qed.

Lemma MAXF_lt_OVER : (0 < MAXF < OVER)%Z.
Proof.
  unfold MAXF, OVER. destruct big_pows as (HA & E971 & _ & E1024).
  rewrite E971, E1024. change (2 ^ 54)%Z with 18014398509481984%Z.
  change (2 ^ 53)%Z with 9007199254740992%Z. lia.
Qed.

Lemma round_Q_cases (q r : Q) :
  round_Q q = Some r ->
  (Qnum q = 0%Z /\ r = 0) \/
  (0 < Qnum q)%Z /\ round_pos (Qnum q) (Zpos (Qden q)) = Some r \/
  (Qnum q < 0)%Z /\
    exists r', round_pos (- Qnum q) (Zpos (Qden q)) = Some r' /\ r = - r'.
Proof.
  unfold round_Q. destruct q as [[|p|p] b]; simpl.
  - intros [= <-]. left; split; reflexivity.
  - intros H. right; left. split; [lia|assumption].
  - intros H. right; right. split; [lia|].
    destruct (round_pos (Z.pos p) (Z.pos b)) as [r'|]; [|discriminate].
    injection H as <-. exists r'. split; reflexivity.
Qed.

Lemma round_Q_bounds q r :
  round_Q q = Some r -> - inject_Z MAXF <= r <= inject_Z MAXF.
Proof.
  intros H. pose proof MAXF_lt_OVER as [M0 _].
  assert (M0' : 0 <= inject_Z MAXF) by (unfold Qle; cbn [Qnum Qden inject_Z Qopp]; lia).
  assert (Hd : (0 < Zpos (Qden q))%Z) by lia.
  destruct (round_Q_cases q r H) as [[_ ->]|[[Hp Hr]|[Hn (r' & Hr & ->)]]].
  - split; [|assumption].
    apply Qle_trans with (- 0); [apply Qopp_le_compat; assumption|].
    unfold Qle; cbn [Qnum Qden inject_Z Qopp]; lia.
  - destruct (round_pos_bounds _ _ _ Hp Hd Hr) as [B0 B1].
    split; [|assumption].
    apply Qle_trans with 0; [|assumption].
    apply Qle_trans with (- 0); [apply Qopp_le_compat; assumption|].
    unfold Qle; cbn [Qnum Qden inject_Z Qopp]; lia.
  - assert (Hn' : (0 < - Qnum q)%Z) by lia.
    destruct (round_pos_bounds _ _ _ Hn' Hd Hr) as [B0 B1].
    split.
    + apply Qopp_le_compat; assumption.
    + apply Qle_trans with 0; [|assumption].
      apply Qle_trans with (- 0); [apply Qopp_le_compat; assumption|].
      unfold Qle; cbn [Qnum Qden inject_Z Qopp]; lia.
Qed.

Lemma round_Q_nonneg q r : 0 <= q -> round_Q q = Some r -> 0 <= r.
Proof.
  intros Hq H.
  destruct (round_Q_cases q r H) as [[_ ->]|[[Hp Hr]|[Hn _]]].
  - apply Qle_refl.
  - assert (Hd : (0 < Zpos (Qden q))%Z) by lia.
    apply (round_pos_bounds _ _ _ Hp Hd Hr).
  - unfold Qle in Hq; simpl in Hq. lia.
Qed.

Lemma round_Q_some q :
  - inject_Z OVER < q -> q < inject_Z OVER -> exists r, round_Q q = Some r.
Proof.
  intros Hlo Hhi. unfold Qlt in Hlo, Hhi. cbn [Qnum Qden inject_Z Qopp] in Hlo, Hhi.
  unfold round_Q. destruct q as [[|p|p] b]; cbn [Qnum Qden] in *.
  - eauto.
  - eexists. apply round_pos_some; lia.
  - rewrite round_pos_some by lia. cbn [option_map]. eauto.
Qed.

Lemma round_Q_le_int q N r :
  0 <= q -> q <= inject_Z N -> q < inject_Z (2 ^ 53) ->
  round_Q q = Some r -> r <= inject_Z N.
Proof.
  intros H0 HN H53 H.
  unfold Qle in H0, HN. unfold Qlt in H53. cbn [Qnum Qden inject_Z] in H0, HN, H53.
  destruct (round_Q_cases q r H) as [[E ->]|[[Hp Hr]|[Hn _]]].
  - unfold Qle; cbn [Qnum Qden inject_Z]. nia.
  - apply (round_pos_le_int (Qnum q) (Zpos (Qden q)) N r); try assumption; lia.
  - lia.
Qed.

Lemma round_Q_positive q r : 1 <= q -> round_Q q = Some r -> 0 < r.
Proof.
  intros H1 H. unfold Qle in H1; simpl in H1.
  destruct (round_Q_cases q r H) as [[E ->]|[[Hp Hr]|[Hn _]]].
  - lia.
  - apply (round_pos_positive (Qnum q) (Zpos (Qden q)) r); [lia|exact Hr].
  - lia.
Qed.

Lemma round_Q_int_exact z r :
  (0 <= z <= 2 ^ 53)%Z -> round_Q (inject_Z z) = Some r -> r == inject_Z z.
Proof.
  intros Hz H.
  destruct (Z.eq_dec z (2 ^ 53)) as [->|Hne].
  - vm_compute in H. injection H as <-. reflexivity.
  - destruct (round_Q_cases _ _ H) as [[E ->]|[[Hp Hr]|[Hn _]]]; simpl in *.
    + subst z. reflexivity.
    + apply round_pos_int_exact; [lia|assumption].
    + lia.
Qed.

(* ----------------------------------------------------------------- *)
(** *** Floats *)

Lemma float_of_int_spec z f :
  float_of_int z = Ok f ->
  exists r, f = Fin r /\
    - inject_Z MAXF <= r <= inject_Z MAXF /\
    ((0 <= z)%Z -> 0 <= r) /\
    ((1 <= z)%Z -> 0 < r) /\
    ((0 <= z <= 2 ^ 53)%Z -> r == inject_Z z).
Proof.
  unfold float_of_int.
  destruct (round_Q (inject_Z z)) as [r|] eqn:E; [|discriminate].
  intros [= <-]. exists r. split; [reflexivity|].
  split; [apply (round_Q_bounds _ _ E)|].
  split; [|split].
  - intros Hz. apply (round_Q_nonneg (inject_Z z)); [|exact E].
    unfold Qle; cbn [Qnum Qden inject_Z]; lia.
  - intros Hz. apply (round_Q_positive (inject_Z z)); [|exact E].
    unfold Qle; cbn [Qnum Qden inject_Z]; lia.
  - intros Hz. apply (round_Q_int_exact _ _ Hz E).
Qed.

Lemma float_of_int_ok z :
  (- OVER < z < OVER)%Z -> exists r, float_of_int z = Ok (Fin r).
Proof.
  intros Hz. unfold float_of_int.
  destruct (round_Q_some (inject_Z z)) as [r ->].
  - unfold Qlt; cbn [Qnum Qden inject_Z Qopp]. lia.
  - unfold Qlt; cbn [Qnum Qden inject_Z Qopp]. lia.
  - eauto.
Qed.

Lemma of_exact_bounds q r :
  of_exact q = Fin r -> - inject_Z MAXF <= r <= inject_Z MAXF.
Proof.
  unfold of_exact. destruct (round_Q q) as [r'|] eqn:E; [|discriminate].
  intros [= <-]. apply (round_Q_bounds _ _ E).
Qed.

Lemma float_mul_bounds a b r :
  float_mul a b = Fin r -> - inject_Z MAXF <= r <= inject_Z MAXF.
Proof.
  destruct a as [x|s|], b as [y|t|]; cbn [float_mul];
    try discriminate; try (destruct (Qzero _); discriminate).
  apply of_exact_bounds.
Qed.

Lemma rne_nonneg n d : (0 <= n)%Z -> (0 < d)%Z -> (0 <= rne n d)%Z.
Proof. intros; apply rne_ge; lia. Qed.

Lemma round2_ok q :
  - inject_Z MAXF <= q <= inject_Z MAXF -> exists r, round2 (Fin q) = Ok (Fin r).
Proof.
  intros [Lo Hi]. cbn [round2].
  pose proof MAXF_lt_OVER as [M0 M1].
  unfold Qle in Lo, Hi. cbn [Qnum Qden inject_Z Qopp] in Lo, Hi.
  destruct (round_Q_some (rne_Q (q * 100) # 100)) as [r ->]; [| |eauto].
  all: unfold Qlt, rne_Q; cbn [Qnum Qden inject_Z Qopp Qmult].
  all: set (K := rne (Z.abs (Qnum q * 100)) (Z.pos (Qden q * 1))).
  all: assert (HK : (0 <= K <= 100 * MAXF)%Z)
         by (split; [apply rne_nonneg; lia|apply rne_le; lia]).
  all: pose proof (Z.sgn_spec (Qnum q * 100)) as [[_ ->]|[[_ ->]|[_ ->]]]; lia.
Qed.

Lemma round2_float_mul_ok a b : exists y, round2 (float_mul a b) = Ok y.
Proof.
  destruct (float_mul a b) as [r|s|] eqn:E; cbn [round2]; eauto.
  destruct (round2_ok r (float_mul_bounds _ _ _ E)) as [y Hy].
  cbn [round2] in Hy. eauto.
Qed.

(** The comparison of two finite floats is the comparison of their values. *)
Lemma float_lt_Fin x y : float_lt (Fin x) (Fin y) = true <-> x < y.
Proof.
  cbn [float_lt]. rewrite Qlt_alt. destruct (x ?= y); split; congruence.
Qed.

Lemma float_lt_Fin_false x y : float_lt (Fin x) (Fin y) = false <-> y <= x.
Proof.
  cbn [float_lt]. rewrite Qle_alt, <- (Qcompare_antisym x y).
  destruct (x ?= y); cbn; split; congruence.
Qed.

(** Truncation is below any integer bound of the value. *)
Lemma int_of_float_bounds q (N : Z) :
  0 <= q -> q <= inject_Z N ->
  exists z, int_of_float (Fin q) = Ok z /\ (0 <= z <= N)%Z.
Proof.
  intros H0 HN. cbn [int_of_float]. eexists; split; [reflexivity|].
  unfold Qle in H0, HN. cbn [Qnum Qden inject_Z] in H0, HN.
  rewrite Z.quot_div_nonneg by lia. split.
  - apply Z.div_pos; lia.
  - apply Z.div_le_upper_bound; lia.
Qed.

(* ----------------------------------------------------------------- *)
(** *** The model against the machine's binary64 *)

(** On these inputs the operations of the model give what the kernel's
    floats give: Python's [0.7], the products and quotients of the pipeline,
    overflow to infinity, gradual underflow and [float()] of an [int] that
    needs rounding. *)
Example lit_0_7_machine : float_lit 7 10 = of_prim 0x1.6666666666666p-1%float.
Proof. vm_compute. reflexivity. Qed.

Example mul_machine :
  float_mul (of_prim 800%float) (of_prim 0x1.6666666666666p-1%float)
  = of_prim (800 * 0x1.6666666666666p-1)%float.
Proof. vm_compute. reflexivity. Qed.

Example div_machine :
  float_truediv (of_prim 640.5%float) (of_prim 1000%float)
  = Ok (of_prim (640.5 / 1000)%float).
Proof. vm_compute. reflexivity. Qed.

Example percent_machine :
  float_mul (of_prim (640.5 / 1000)%float) (Fin 100)
  = of_prim (640.5 / 1000 * 100)%float.
Proof. vm_compute. reflexivity. Qed.

Example overflow_machine :
  float_mul (of_prim 0x1p1023%float) (of_prim 2%float) = of_prim infinity.
Proof. vm_compute. reflexivity. Qed.

Example underflow_machine :
  float_truediv (of_prim 0x1p-1070%float) (of_prim 3%float)
  = Ok (of_prim (0x1p-1070 / 3)%float).
Proof. vm_compute. reflexivity. Qed.

Example tiny_machine :
  float_mul (of_prim 0x1p-600%float) (of_prim 0x1p-600%float)
  = of_prim 0%float.
Proof. vm_compute. reflexivity. Qed.

Example float_of_int_machine :
  float_of_int 9007199254740995 = Ok (of_prim 9007199254740996%float).
Proof. vm_compute. reflexivity. Qed.

(** Python's [round(2.675, 2)] is [2.67] and [round(0.125, 2)] is [0.12];
    [round(2.5)] is [2] and [round(3.5)] is [4]. *)
Example round2_2_675 : round2 (float_lit 2675 1000) = Ok (float_lit 267 100).
Proof. vm_compute. reflexivity. Qed.

Example round2_0_125 : round2 (Fin (1 # 8)) = Ok (float_lit 12 100).
Proof. vm_compute. reflexivity. Qed.

Example round0_ties :
  round0 (Fin (5 # 2)) = Ok 2%Z /\ round0 (Fin (7 # 2)) = Ok 4%Z.
Proof. split; reflexivity. Qed.

(* ----------------------------------------------------------------- *)
(** *** More on rounding: lower bounds, exact integers, overflow *)

Lemma round_pos_ge_int n d N r :
  (0 < n)%Z -> (0 < d)%Z -> (N * d <= n)%Z -> (n < 2 ^ 53 * d)%Z ->
  round_pos n d = Some r -> inject_Z N <= r.
Proof.
  intros Hn Hd HN H53 H.
  destruct (round_pos_mant_bound n d r Hn Hd H) as (-> & _).
  pose proof (rexp_nonpos n d Hn Hd H53) as He.
  apply dyadic_ge_int. unfold rmant.
  rewrite snum_nonpos, sden_nonpos by assumption. max_norm.
  change (2 ^ 0)%Z with 1%Z. rewrite Z.mul_1_r.
  pose proof (pow2_pos (- rexp n d)) as PP. max_norm.
  apply rne_ge; [assumption|nia].
Qed.

(** A value below 2^53 never rounds across an integer below it. *)
Lemma round_Q_ge_int q N r :
  0 <= q -> inject_Z N <= q -> q < inject_Z (2 ^ 53) ->
  round_Q q = Some r -> inject_Z N <= r.
Proof.
  intros H0 HN H53 H.
  unfold Qle in H0, HN. unfold Qlt in H53. cbn [Qnum Qden inject_Z] in H0, HN, H53.
  destruct (round_Q_cases q r H) as [[E ->]|[[Hp Hr]|[Hn _]]].
  - unfold Qle; cbn [Qnum Qden inject_Z]. nia.
  - apply (round_pos_ge_int (Qnum q) (Zpos (Qden q)) N r); try assumption; lia.
  - lia.
Qed.

Lemma Qred_inject_Z z : Qred (inject_Z z) = inject_Z z.
Proof.
  unfold Qred, inject_Z.
  pose proof (Z.ggcd_gcd z 1) as G.
  pose proof (Z.ggcd_correct_divisors z 1) as D.
  destruct (Z.ggcd z 1) as [g [aa bb]]. cbn [fst snd] in *.
  rewrite Z.gcd_1_r in G. subst g. destruct D as [D1 D2].
  rewrite Z.mul_1_l in D1, D2. subst z bb. reflexivity.
Qed.

(** [dyadic] returns fractions in lowest terms. *)
Lemma dyadic_Qred m e : Qred (dyadic m e) = dyadic m e.
Proof.
  unfold dyadic. destruct (0 <=? e)%Z.
  - apply Qred_inject_Z.
  - apply Qred_complete, Qred_correct.
Qed.

Lemma round_Q_Qred q r : round_Q q = Some r -> Qred r = r.
Proof.
  intros H.
  destruct (round_Q_cases q r H) as [[_ ->]|[[Hp Hr]|[Hn (r' & Hr & ->)]]].
  - reflexivity.
  - assert (Hd : (0 < Zpos (Qden q))%Z) by lia.
    destruct (round_pos_mant_bound _ _ _ Hp Hd Hr) as (-> & _).
    apply dyadic_Qred.
  - assert (Hn' : (0 < - Qnum q)%Z) by lia.
    assert (Hd : (0 < Zpos (Qden q))%Z) by lia.
    destruct (round_pos_mant_bound _ _ _ Hn' Hd Hr) as (-> & _).
    rewrite Qred_opp, dyadic_Qred. reflexivity.
Qed.

(** [float(z)] is exact up to 2^53. *)
Lemma float_of_int_exact z :
  (0 <= z <= 2 ^ 53)%Z -> float_of_int z = Ok (Fin (inject_Z z)).
Proof.
  intros Hz. pose proof MAXF_lt_OVER as [M0 M1].
  assert (H53 : (2 ^ 53 < OVER)%Z).
  { unfold OVER. destruct big_pows as (HA & _ & _ & E1024). rewrite E1024.
    change (2 ^ 54)%Z with 18014398509481984%Z.
    change (2 ^ 53)%Z with 9007199254740992%Z. lia. }
  destruct (float_of_int_ok z ltac:(lia)) as [r E]. rewrite E.
  unfold float_of_int in E.
  destruct (round_Q (inject_Z z)) as [r'|] eqn:R; [|discriminate].
  injection E as <-.
  pose proof (round_Q_int_exact z r' Hz R) as Hx.
  apply Qred_complete in Hx.
  rewrite (round_Q_Qred _ _ R), Qred_inject_Z in Hx. rewrite Hx. reflexivity.
Qed.

(** Ties go to the even neighbour: half way above an odd integer rounds
    up. *)
Lemma rne_ge_half_odd n d M :
  (0 < d)%Z -> Z.even M = true -> ((2 * M - 1) * d <= 2 * n)%Z ->
  (M <= rne n d)%Z.
Proof.
  intros Hd Hev H. unfold rne.
  pose proof (Z.div_mod n d ltac:(lia)) as E.
  pose proof (Z.mod_pos_bound n d Hd) as B.
  assert (M - 1 <= n / d)%Z by (apply Z.div_le_lower_bound; nia).
  destruct (Z.eq_dec (n / d) (M - 1)) as [Q|Q].
  - rewrite Q in *.
    assert (Hodd : Z.even (M - 1) = false).
    { replace (M - 1)%Z with (Z.pred M) by lia.
      rewrite Z.even_pred. rewrite <- Z.negb_even. rewrite Hev. reflexivity. }
    rewrite Hodd.
    destruct (Z.compare_spec (2 * (n mod d)) d); first [lia|nia].
  - destruct (2 * (n mod d) ?= d)%Z; try destruct (Z.even (n / d)); lia.
Qed.

(** [float(z)] raises from 2^1024 - 2^970 on. *)
Lemma float_of_int_overflow z :
  (OVER <= z)%Z -> float_of_int z = Raise OverflowError.
Proof.
  intros Hz. pose proof MAXF_lt_OVER as [M0 M1].
  unfold float_of_int, round_Q. cbn [Qnum Qden inject_Z].
  destruct z as [|n|n]; try lia.
  rewrite round_pos_unfold.
  destruct big_pows as (HA & E971 & E972 & E1024).
  assert (Hn : (0 < Z.pos n)%Z) by lia.
  assert (Hd : (0 < 1)%Z) by lia.
  unfold OVER in Hz. rewrite E1024 in Hz.
  change (2 ^ 54)%Z with 18014398509481984%Z in *.
  destruct (floor_log2_spec (Z.pos n) 1 Hn Hd) as [_ Hi].
  assert (HL : (1022 < floor_log2 (Z.pos n) 1)%Z).
  { destruct (Z_lt_le_dec 1022 (floor_log2 (Z.pos n) 1)) as [|C]; [assumption|].
    exfalso.
    assert (H1 : (snum (Z.pos n) 1023 < sden 1 1023)%Z).
    { apply scaled_lt_mono with (a := (floor_log2 (Z.pos n) 1 + 1)%Z);
        [lia|lia|assumption]. }
    rewrite snum_nonneg, sden_nonneg in H1 by lia.
    assert (E1023 : (2 ^ 1023 = 2 ^ 53 * 2 ^ 970)%Z).
    { change 1023%Z with (53 + 970)%Z. rewrite pow2_split by lia. reflexivity. }
    rewrite E1023 in H1. change (2 ^ 53)%Z with 9007199254740992%Z in H1. lia. }
  assert (He : (971 <= rexp (Z.pos n) 1)%Z) by (unfold rexp; lia).
  assert (Hnorm : (-1074 <= floor_log2 (Z.pos n) 1 - 52)%Z) by lia.
  pose proof (rmant_ge (Z.pos n) 1 Hn Hd Hnorm) as M2.
  change (2 ^ 52)%Z with 4503599627370496%Z in M2.
  destruct (Z.leb_spec (2 ^ 1024) (rmant (Z.pos n) 1 * 2 ^ Z.max 0 (rexp (Z.pos n) 1)))
    as [C|C]; [reflexivity|exfalso].
  rewrite E1024 in C.
  destruct (Z.eq_dec (rexp (Z.pos n) 1) 971) as [E|E].
  - assert (9007199254740992 <= rmant (Z.pos n) 1)%Z.
    { unfold rmant. rewrite E. rewrite snum_nonneg, sden_nonneg by lia.
      apply rne_ge_half_odd; [rewrite E971; lia|reflexivity|].
      rewrite E971. lia. }
    rewrite E in C. change (Z.max 0 971) with 971%Z in C.
    rewrite E971 in C. nia.
  - assert (2 ^ 972 <= 2 ^ Z.max 0 (rexp (Z.pos n) 1))%Z
      by (apply Z.pow_le_mono_r; lia).
    rewrite E972 in *. nia.
Qed.

(* ----------------------------------------------------------------- *)
(** *** [strip] *)






End PyFacts.

(* ================================================================= *)
(** ** Facts about app.py *)

Module AppFacts.
Import Py App PyFacts.
Local Open Scope py_scope.

(* ----------------------------------------------------------------- *)
(** *** The monad *)

Lemma snd_bind {A B} (m : M A) (f : A -> M B) :
  snd (bind m f) = rbind (snd m) (fun a => snd (f a)).
Proof.
  destruct m as [l [a|e]]; cbn; [destruct (f a); reflexivity|reflexivity].
Qed.

Lemma fst_bind {A B} (m : M A) (f : A -> M B) :
  fst (bind m f) =
  (fst m ++ match snd m with Ok a => fst (f a) | Raise _ => [] end)%list.
Proof.
  destruct m as [l [a|e]]; cbn;
    [destruct (f a); reflexivity|rewrite app_nil_r; reflexivity].
Qed.

Lemma snd_try_except {A} (m : M A) (h : exn -> M A) :
  snd (try_except m h) =
  match snd m with Ok a => Ok a | Raise e => snd (h e) end.
Proof.
  destruct m as [l [a|e]]; cbn; [reflexivity|destruct (h e); reflexivity].
Qed.

Lemma fst_try_except {A} (m : M A) (h : exn -> M A) :
  fst (try_except m h) =
  (fst m ++ match snd m with Ok _ => [] | Raise e => fst (h e) end)%list.
Proof.
  destruct m as [l [a|e]]; cbn;
    [rewrite app_nil_r; reflexivity|destruct (h e); reflexivity].
Qed.

Lemma bind_lift {A B} (r : result A) (f : A -> M B) :
  bind (lift r) f = match r with Ok a => f a | Raise e => ([], Raise e) end.
Proof.
  destruct r as [a|e]; cbn; [destruct (f a); reflexivity|reflexivity].
Qed.

Lemma bind_print {B} (l : logline) (f : unit -> M B) :
  bind (print l) f = (l :: fst (f tt), snd (f tt)).
Proof. cbn. destruct (f tt); reflexivity. Qed.

Lemma bind_ret {A B} (a : A) (f : A -> M B) : bind (ret a) f = f a.
Proof. cbn. destruct (f a); reflexivity. Qed.

(* ----------------------------------------------------------------- *)
(** *** The data frame (lines 69-76) *)

Lemma assoc_app {A} (df1 df2 : list (string * A)) c :
  assoc (df1 ++ df2) c =
  match assoc df1 c with Some v => Some v | None => assoc df2 c end.
Proof.
  induction df1 as [|[k v] r IH]; cbn; [reflexivity|].
  destruct (String.eqb k c); [reflexivity|exact IH].
Qed.

Lemma has_column_assoc (df : DataFrame) c :
  has_column df c = match assoc df c with Some _ => true | None => false end.
Proof.
  unfold has_column. induction df as [|[k v] r IH]; cbn; [reflexivity|].
  rewrite (String.eqb_sym c k). destruct (String.eqb k c); [reflexivity|exact IH].
Qed.

Lemma fill_missing_assoc cols : forall (df : DataFrame) c,
  assoc (fill_missing df cols) c =
  match assoc df c with
  | Some v => Some v
  | None => if existsb (String.eqb c) cols then Some (CInt 0) else None
  end.
Proof.
  induction cols as [|c0 cols IH]; intros df c; cbn.
  - destruct (assoc df c); reflexivity.
  - unfold fill_missing in IH. rewrite IH. rewrite has_column_assoc.
    destruct (assoc df c0) eqn:E0.
    + destruct (assoc df c) eqn:E; [reflexivity|].
      destruct (String.eqb c c0) eqn:Ec; [|reflexivity].
      apply String.eqb_eq in Ec. congruence.
    + rewrite assoc_app. destruct (assoc df c) eqn:E; [reflexivity|].
      cbn. rewrite (String.eqb_sym c0 c).
      destruct (String.eqb c c0); cbn; [|reflexivity].
      destruct (existsb (String.eqb c) cols); reflexivity.
Qed.

Lemma select_columns_map (df : DataFrame) (g : string -> cell) cols :
  (forall c, In c cols -> assoc df c = Some (g c)) ->
  select_columns df cols = Ok (map (fun c => (c, g c)) cols).
Proof.
  induction cols as [|c cols IH]; intros H; cbn; [reflexivity|].
  rewrite (H c (or_introl eq_refl)). cbn.
  rewrite IH by (intros; apply H; right; assumption). reflexivity.
Qed.

Lemma select_fill (features : DataFrame) expected_columns :
  select_columns (fill_missing features expected_columns) expected_columns
  = Ok (frame features expected_columns).
Proof.
  apply select_columns_map. intros c Hc. rewrite fill_missing_assoc.
  destruct (assoc features c); cbn; [reflexivity|].
  replace (existsb (String.eqb c) expected_columns) with true; [reflexivity|].
  symmetry. apply existsb_exists. exists c. split; [assumption|].
  apply String.eqb_refl.
Qed.

(* ----------------------------------------------------------------- *)
(** *** [predict_segregation] *)

Lemma encode_zone_cases le z :
  (existsb (String.eqb z) (classes_ le) = false /\
   encode_zone le z = ([LogEncodedZone z 0], Ok 0)) \/
  (existsb (String.eqb z) (classes_ le) = true /\
   exists id, le_transform le z = Ok id /\
              encode_zone le z = ([LogEncodedZone z id], Ok id)) \/
  (existsb (String.eqb z) (classes_ le) = true /\
   exists e, le_transform le z = Raise e /\
             encode_zone le z = ([LogZoneError e], Ok 0)).
Proof.
  unfold encode_zone.
  destruct (existsb (String.eqb z) (classes_ le)) eqn:E.
  - right. destruct (le_transform le z) as [id|e] eqn:T.
    + left. split; [reflexivity|]. exists id. split; reflexivity.
    + right. split; [reflexivity|]. exists e. split; reflexivity.
  - left. split; reflexivity.
Qed.

Lemma encode_zone_ok le z :
  exists lz zone_id, encode_zone le z = (lz, Ok zone_id) /\
    forall x, In x lz ->
      (exists n i, x = LogEncodedZone n i) \/ (exists e, x = LogZoneError e).
Proof.
  destruct (encode_zone_cases le z) as [[_ ->]|[[_ (id & _ & ->)]|[_ (e & _ & ->)]]];
    do 2 eexists; (split; [reflexivity|]); intros x [<-|[]]; eauto.
Qed.

(** A run of the [try] body either reaches the frame, and then has the
    shape below, or raises before printing it. *)
Lemma predict_segregation_try_cases sm d :
  (exists model le scaler cols t c z ft fc lz zone_id,
     XGBoost_pkl sm = Ok model /\ zone_encoder_pkl sm = Ok le /\
     scaler_pkl sm = Ok scaler /\ columns_csv sm = Ok cols /\
     Total_Households d = Some t /\ float_of_int t = Ok ft /\
     Covered_Households d = Some c /\ float_of_int c = Ok fc /\
     Zone_Name d = Some z /\
     encode_zone le (strip z) = (lz, Ok zone_id) /\
     filter is_frame_line lz = [] /\
     let fr := frame (input_features ft fc zone_id (get_default (Ward_No d) 1))
                     cols in
     predict_segregation_try sm d =
       ((LogLoading :: LogExpectedColumns cols :: lz ++
         LogInputColumns cols :: LogInputValues (map snd fr) ::
         fst (scale_and_predict scaler model fr fc))%list,
        snd (scale_and_predict scaler model fr fc)))
  \/
  (exists l e, predict_segregation_try sm d = (l, Raise e) /\ early l).
Proof.
  unfold predict_segregation_try.
  rewrite bind_print.
  destruct (XGBoost_pkl sm) as [model|e] eqn:E1;
    [|right; do 2 eexists; split; [reflexivity|intros x [<-|[]]; auto]].
  rewrite bind_lift.
  destruct (zone_encoder_pkl sm) as [le|e] eqn:E2;
    [|right; do 2 eexists; split; [reflexivity|intros x [<-|[]]; auto]].
  rewrite bind_lift.
  destruct (scaler_pkl sm) as [scaler|e] eqn:E3;
    [|right; do 2 eexists; split; [reflexivity|intros x [<-|[]]; auto]].
  rewrite bind_lift.
  destruct (columns_csv sm) as [cols|e] eqn:E4;
    [|right; do 2 eexists; split; [reflexivity|intros x [<-|[]]; auto]].
  rewrite bind_lift, bind_print.
  assert (Hearly : early [LogLoading; LogExpectedColumns cols]).
  { intros x [<-|[<-|[]]]; eauto. }
  destruct (Total_Households d) as [t|] eqn:E5;
    [|right; do 2 eexists; split; [reflexivity|exact Hearly]].
  cbn [getitem rbind]. rewrite bind_lift.
  destruct (float_of_int t) as [ft|e] eqn:E6;
    [|right; do 2 eexists; split; [reflexivity|exact Hearly]].
  destruct (Covered_Households d) as [c|] eqn:E7;
    [|right; do 2 eexists; split; [reflexivity|exact Hearly]].
  cbn [getitem rbind]. rewrite bind_lift.
  destruct (float_of_int c) as [fc|e] eqn:E8;
    [|right; do 2 eexists; split; [reflexivity|exact Hearly]].
  destruct (Zone_Name d) as [z|] eqn:E9;
    [|right; do 2 eexists; split; [reflexivity|exact Hearly]].
  cbn [getitem rbind]. rewrite bind_lift.
  destruct (encode_zone_ok le (strip z)) as (lz & zone_id & Hz & Hlz).
  left. exists model, le, scaler, cols, t, c, z, ft, fc, lz, zone_id.
  repeat (split; [first [reflexivity|assumption]|]).
  split.
  { clear - Hlz. induction lz as [|x lz IH]; [reflexivity|]. cbn.
    destruct (Hlz x (or_introl eq_refl)) as [(n & i & ->)|(e & ->)];
      cbn; apply IH; intros y Hy; apply Hlz; right; exact Hy. }
  cbv zeta. rewrite Hz. cbn [bind].
  rewrite select_fill. rewrite bind_lift, !bind_print.
  unfold frame at 1. rewrite map_map. cbn [fst]. rewrite map_id.
  unfold scale_and_predict.
  destruct (sc_transform scaler _) as [input_scaled|e]; [|reflexivity].
  rewrite bind_lift.
  destruct (predict model input_scaled) as [pred|e]; reflexivity.
Qed.

Local Open Scope Q_scope.

Lemma clamp_spec pred r :
  0 <= r -> exists q, clamp pred (Fin r) = Fin q /\ 0 <= q <= r.
Proof.
  intros Hr. unfold clamp.
  destruct pred as [p|[|]|].
  - destruct (float_lt (Fin r) (Fin p)) eqn:E1.
    + destruct (float_lt (Fin 0) (Fin r)) eqn:E2.
      * exists r. split; [reflexivity|]. split; [assumption|apply Qle_refl].
      * exists 0. split; [reflexivity|]. split; [apply Qle_refl|assumption].
    + apply float_lt_Fin_false in E1.
      destruct (float_lt (Fin 0) (Fin p)) eqn:E2.
      * apply float_lt_Fin in E2. exists p. split; [reflexivity|].
        split; [apply Qlt_le_weak; assumption|assumption].
      * exists 0. split; [reflexivity|]. split; [apply Qle_refl|assumption].
  - cbn. exists 0. split; [reflexivity|]. split; [apply Qle_refl|assumption].
  - change (float_lt (Fin r) (Inf false)) with true. cbv iota zeta.
    destruct (float_lt (Fin 0) (Fin r)) eqn:E2.
    + exists r. split; [reflexivity|]. split; [assumption|apply Qle_refl].
    + exists 0. split; [reflexivity|]. split; [apply Qle_refl|assumption].
  - cbn. exists 0. split; [reflexivity|]. split; [apply Qle_refl|assumption].
Qed.

(** The literal [0.7]. *)
Lemma float_lit_0_7 :
  float_lit 7 10 = Fin (3152519739159347 # 4503599627370496).
Proof. vm_compute. reflexivity. Qed.

Lemma inject_Z_MAXF_lt_OVER : inject_Z MAXF < inject_Z OVER.
Proof.
  pose proof MAXF_lt_OVER. unfold Qlt; cbn [Qnum Qden inject_Z]. lia.
Qed.

(** 70% of a non-negative float: finite, non-negative, and no larger than
    any integer bound of the float that is at most 2^53. *)
Lemma float_mul_0_7 r :
  0 <= r <= inject_Z MAXF ->
  exists q, float_mul (Fin r) (float_lit 7 10) = Fin q /\
    0 <= q <= inject_Z MAXF /\
    forall N : Z, (N <= 2 ^ 53)%Z -> r <= inject_Z N -> q <= inject_Z N.
Proof.
  intros [H0 H1]. rewrite float_lit_0_7. cbn [float_mul]. unfold of_exact.
  set (x := r * (3152519739159347 # 4503599627370496)).
  assert (Hx0 : 0 <= x) by (unfold x; lra).
  assert (Hxr : x <= r) by (unfold x; lra).
  pose proof inject_Z_MAXF_lt_OVER as HM.
  destruct (round_Q_some x) as [q Hq]; [lra|lra|].
  rewrite Hq. exists q. split; [reflexivity|].
  split; [split; [apply (round_Q_nonneg _ _ Hx0 Hq)|apply (round_Q_bounds _ _ Hq)]|].
  intros N HN HrN. apply (round_Q_le_int x); try assumption; [lra|].
  assert (inject_Z N <= inject_Z (2 ^ 53))
    by (unfold Qle; cbn [Qnum Qden inject_Z]; lia).
  destruct (Qlt_le_dec 0 r) as [P|P]; [unfold x; lra|].
  assert (0 < inject_Z (2 ^ 53)) by reflexivity.
  unfold x; lra.
Qed.

Lemma fallback_unfold d :
  fallback d =
  ([], rbind (float_of_int (get_default (Covered_Households d) 0%Z))
             (fun fc => Ok (float_mul fc (float_lit 7 10)))).
Proof.
  unfold fallback. rewrite bind_lift.
  destruct (float_of_int _); reflexivity.
Qed.

Lemma predict_segregation_unfold sm d :
  predict_segregation sm d =
  match predict_segregation_try sm d with
  | (l, Ok pc) => (l, Ok pc)
  | (l, Raise e) => ((l ++ [LogPredictError e])%list, snd (fallback d))
  end.
Proof.
  unfold predict_segregation, try_except.
  destruct (predict_segregation_try sm d) as [l [pc|e]]; [reflexivity|].
  rewrite bind_print, fallback_unfold. reflexivity.
Qed.

Lemma fallback_value d c pc :
  get_default (Covered_Households d) 0%Z = c -> (0 <= c)%Z ->
  snd (fallback d) = Ok pc ->
  exists q, pc = Fin q /\ 0 <= q <= inject_Z MAXF /\
            ((c <= 2 ^ 53)%Z -> q <= inject_Z c).
Proof.
  intros Hc H0. rewrite fallback_unfold, Hc. cbn [snd].
  destruct (float_of_int c) as [fc|e] eqn:E; [|discriminate].
  destruct (float_of_int_spec _ _ E) as (r & -> & [_ B1] & B0 & _ & Bx).
  cbn [rbind]. intros Hpc.
  destruct (float_mul_0_7 r (conj (B0 H0) B1)) as (q & Eq & Bq & Hq).
  rewrite Eq in Hpc.
  exists q. split; [congruence|]. split; [assumption|].
  intros H53. apply Hq; [assumption|].
  rewrite (Bx (conj H0 H53)). apply Qle_refl.
Qed.

Lemma fallback_ok d c :
  get_default (Covered_Households d) 0%Z = c -> (0 <= c < OVER)%Z ->
  exists q, snd (fallback d) = Ok (Fin q).
Proof.
  intros Hc H0. rewrite fallback_unfold, Hc. cbn [snd].
  pose proof MAXF_lt_OVER.
  destruct (float_of_int_ok c ltac:(lia)) as [r E]. rewrite E.
  destruct (float_of_int_spec _ _ E) as (r' & [= <-] & [_ B1] & B0 & _).
  destruct (float_mul_0_7 r (conj (B0 ltac:(lia)) B1)) as (q & Hq & _).
  cbn [rbind]. rewrite Hq. eauto.
Qed.

Lemma scale_and_predict_value scaler model fr fc pc :
  snd (scale_and_predict scaler model fr fc) = Ok pc ->
  exists pred, pc = clamp pred fc.
Proof.
  unfold scale_and_predict.
  destruct (sc_transform scaler fr) as [x|e]; [|discriminate].
  destruct (predict model x) as [pred|e]; [|discriminate].
  cbn. intros [= <-]. eauto.
Qed.

(** Whatever the artifacts do, a returned estimate is a finite float between
    [0] and the largest float; it is at most the covered count when that
    count is at most 2^53. *)
Lemma predict_segregation_value sm d c log pc :
  Covered_Households d = Some c -> (0 <= c)%Z ->
  predict_segregation sm d = (log, Ok pc) ->
  exists q, pc = Fin q /\ 0 <= q <= inject_Z MAXF /\
            ((c <= 2 ^ 53)%Z -> q <= inject_Z c).
Proof.
  intros Hc H0. rewrite predict_segregation_unfold.
  assert (Hfb : forall pc', snd (fallback d) = Ok pc' ->
            exists q, pc' = Fin q /\ 0 <= q <= inject_Z MAXF /\
                      ((c <= 2 ^ 53)%Z -> q <= inject_Z c)).
  { intros pc'. apply fallback_value; [rewrite Hc; reflexivity|assumption]. }
  destruct (predict_segregation_try_cases sm d)
    as [(model & le & scaler & cols & t & c' & z & ft & fc & lz & zid &
         _ & _ & _ & _ & _ & _ & Hc' & Hfc & _ & _ & _ & ->)|(l & e & -> & _)].
  - rewrite Hc in Hc'. injection Hc' as <-.
    destruct (snd (scale_and_predict _ _ _ _)) as [pc'|e] eqn:E.
    + intros [= _ <-].
      destruct (scale_and_predict_value _ _ _ _ _ E) as [pred ->].
      destruct (float_of_int_spec _ _ Hfc) as (r & -> & [_ B1] & B0 & _ & Bx).
      destruct (clamp_spec pred r (B0 H0)) as (q & -> & Q0 & Q1).
      exists q. split; [reflexivity|]. split; [split; [assumption|lra]|].
      intros H53. rewrite <- (Bx (conj H0 H53)). assumption.
    + intros [= _ H]. apply Hfb; assumption.
  - intros [= _ H]. apply Hfb; assumption.
Qed.

(** With a covered count that converts to a float, the function returns. *)
Lemma predict_segregation_ok sm d c :
  Covered_Households d = Some c -> (0 <= c < OVER)%Z ->
  exists log q, predict_segregation sm d = (log, Ok (Fin q)).
Proof.
  intros Hc H0.
  destruct (predict_segregation sm d) as [log [pc|e]] eqn:E.
  - destruct (predict_segregation_value _ _ _ _ _ Hc ltac:(lia) E) as (q & -> & _).
    eauto.
  - exfalso. rewrite predict_segregation_unfold in E.
    destruct (fallback_ok d c ltac:(rewrite Hc; reflexivity) H0) as [q Hq].
    destruct (predict_segregation_try sm d) as [l [pc|e']];
      [discriminate|]. rewrite Hq in E. discriminate.
Qed.

(* ----------------------------------------------------------------- *)
(** *** [predict_route] *)

Local Open Scope Z_scope.

Section RouteFacts.

Variable _unique_zones : list string.
Variable repr : json -> string.

Abbreviation validate := (validate repr).
Abbreviation default_zone := (default_zone _unique_zones).
Abbreviation predict_route := (predict_route _unique_zones repr).
Abbreviation field_zone := (field_zone repr).

Lemma validate_dict kv :
  validate (JDict kv) =
  match field_int kv "total_households" with
  | Raise e => on_conversion_error e
  | Ok total =>
      match field_int kv "covered_households" with
      | Raise e => on_conversion_error e
      | Ok covered =>
          ([], Ok (if total <=? 0 then inl non_positive_total
                   else if (covered <? 0) || (total <? covered)
                        then inl covered_out_of_range
                        else inr (total, covered, field_zone kv)))
      end
  end.
Proof.
  unfold App.validate, try_except_value_type, field_int, App.field_zone.
  cbn [get rbind]. rewrite bind_lift.
  destruct (int _) as [total|e]; [|destruct e; reflexivity].
  rewrite bind_lift.
  destruct (int _) as [covered|e]; [|destruct e; reflexivity].
  rewrite bind_lift.
  destruct (total <=? 0); [reflexivity|].
  destruct ((covered <? 0) || (total <? covered)); reflexivity.
Qed.

Lemma validate_not_dict data :
  (forall kv, data <> JDict kv) -> validate data = ([], Raise AttributeError).
Proof.
  intros H. destruct data; try reflexivity. exfalso; eapply H; reflexivity.
Qed.

(** The three values come out of [validate] only for a dictionary whose
    fields convert and pass both range checks; nothing is printed. *)
Lemma validate_inr data lv t c z :
  validate data = (lv, Ok (inr (t, c, z))) ->
  lv = [] /\ exists kv, data = JDict kv /\
    field_int kv "total_households" = Ok t /\
    field_int kv "covered_households" = Ok c /\
    z = field_zone kv /\ 0 < t /\ 0 <= c <= t.
Proof.
  destruct data as [| | | | | |kv]; try discriminate.
  rewrite validate_dict.
  destruct (field_int kv "total_households") as [t'|e] eqn:Et;
    [|destruct e; discriminate].
  destruct (field_int kv "covered_households") as [c'|e] eqn:Ec;
    [|destruct e; discriminate].
  destruct (Z.leb_spec t' 0) as [|Ht]; [discriminate|].
  destruct (Z.ltb_spec c' 0) as [|Hc0]; [discriminate|].
  destruct (Z.ltb_spec t' c') as [|Hc1]; [discriminate|].
  cbn [orb]. intros Hv. injection Hv as <- <- <- <-.
  split; [reflexivity|]. exists kv.
  split; [reflexivity|]. split; [assumption|]. split; [assumption|].
  split; [reflexivity|]. lia.
Qed.

Lemma respond_unfold sm t c z :
  respond sm t c z =
  match predict_segregation sm (route_input t c z) with
  | (l, Raise e) => ((l ++ [LogPredictionError e])%list, Ok (prediction_failed e))
  | (l, Ok pc) =>
      match rate pc t with
      | Raise e => ((l ++ [LogPredictionError e])%list, Ok (prediction_failed e))
      | Ok sr =>
          match int_of_float pc with
          | Raise e =>
              ((l ++ [LogPredictionError e])%list, Ok (prediction_failed e))
          | Ok p => (l, Ok (success sr p t c z))
          end
      end
  end.
Proof.
  unfold respond, try_except.
  destruct (predict_segregation sm (route_input t c z)) as [l [pc|e]];
    cbn [bind]; [|reflexivity].
  destruct (rate pc t) as [sr|e]; cbn [bind lift ret print];
    [|rewrite app_nil_r; reflexivity].
  destruct (int_of_float pc) as [p|e]; cbn [bind lift ret print app];
    rewrite !app_nil_r; reflexivity.
Qed.

Lemma respond_returns sm t c z : exists l r, respond sm t c z = (l, Ok r).
Proof.
  rewrite respond_unfold.
  destruct (predict_segregation _ _) as [l [pc|e]]; [|eauto].
  destruct (rate pc t); [|eauto]. destruct (int_of_float pc); eauto.
Qed.

Lemma predict_route_unfold sm data :
  predict_route sm data =
  if negb (truthy data) then ([], Ok no_input)
  else match validate data with
       | (lv, Raise e) => ((lv ++ [LogUnexpected e])%list, Ok unexpected_error)
       | (lv, Ok (inl rejection)) => (lv, Ok rejection)
       | (lv, Ok (inr (t, c, z))) =>
           ((lv ++ fst (respond sm t c (default_zone z)))%list,
            snd (respond sm t c (default_zone z)))
       end.
Proof.
  unfold App.predict_route, try_except.
  destruct (negb (truthy data)); [reflexivity|].
  destruct (validate data) as [lv [[rej|[[t c] z]]|e]]; cbn [bind].
  - cbn. rewrite !app_nil_r. reflexivity.
  - destruct (respond_returns sm t c (default_zone z)) as (l & r & ->).
    reflexivity.
  - reflexivity.
Qed.

End RouteFacts.

(* ----------------------------------------------------------------- *)
(** *** The rate (line 205) *)

Lemma float_of_int_100 : float_of_int 100 = Ok (Fin 100).
Proof. vm_compute. reflexivity. Qed.

Lemma rate_unfold pc t :
  0 < t ->
  rate pc t =
  rbind (float_of_int t) (fun ft =>
  rbind (float_truediv pc ft) (fun r => round2 (float_mul r (Fin 100)))).
Proof.
  intros Ht. unfold rate. destruct (Z.ltb_spec 0 t); [|lia].
  rewrite float_of_int_100. reflexivity.
Qed.

Lemma float_truediv_positive pc r :
  (0 < r)%Q -> exists q, float_truediv pc (Fin r) = Ok q.
Proof.
  intros Hr. unfold float_truediv, Qzero.
  destruct (Z.eqb_spec (Qnum r) 0) as [E|E].
  - unfold Qlt in Hr; cbn in Hr. lia.
  - destruct pc; eauto.
Qed.

Lemma round2_raises x e : round2 x = Raise e -> e = OverflowError.
Proof.
  destruct x as [q| |]; cbn [round2]; try discriminate.
  destruct (round_Q _); [discriminate|]. congruence.
Qed.

Lemma float_of_int_raises z e : float_of_int z = Raise e -> e = OverflowError.
Proof.
  unfold float_of_int. destruct (round_Q _); [discriminate|]. congruence.
Qed.

Lemma rate_raises pc t e : 0 < t -> rate pc t = Raise e -> e = OverflowError.
Proof.
  intros Ht. rewrite (rate_unfold _ _ Ht).
  destruct (float_of_int t) as [ft|e'] eqn:E; cbn [rbind];
    [|intros [= <-]; apply (float_of_int_raises _ _ E)].
  destruct (float_of_int_spec _ _ E) as (r & -> & _ & _ & Hpos & _).
  destruct (float_truediv_positive pc r (Hpos ltac:(lia))) as [q ->].
  cbn [rbind]. apply round2_raises.
Qed.

Lemma rate_ok pc t : 0 < t < OVER -> exists sr, rate pc t = Ok sr.
Proof.
  intros Ht. rewrite rate_unfold by lia.
  destruct (float_of_int_ok t ltac:(lia)) as [r E]. rewrite E. cbn [rbind].
  destruct (float_of_int_spec _ _ E) as (r' & [= <-] & _ & _ & Hpos & _).
  destruct (float_truediv_positive pc r (Hpos ltac:(lia))) as [q ->].
  cbn [rbind]. apply round2_float_mul_ok.
Qed.

Lemma int_of_float_raises x e :
  int_of_float x = Raise e -> e = OverflowError \/ e = ValueError.
Proof. destruct x; cbn; intros [= <-]; auto. Qed.

Lemma predict_segregation_raises sm d l e :
  predict_segregation sm d = (l, Raise e) -> e = OverflowError.
Proof.
  rewrite predict_segregation_unfold, fallback_unfold. cbn [snd].
  destruct (predict_segregation_try sm d) as [l' [pc|e']]; [discriminate|].
  destruct (float_of_int _) as [fc|e''] eqn:E; cbn [rbind]; [discriminate|].
  intros [= _ <-]. apply (float_of_int_raises _ _ E).
Qed.

(* ----------------------------------------------------------------- *)
(** *** The claims about the request handler *)

Section RouteClaims.

Variable _unique_zones : list string.
Variable repr : json -> string.

Abbreviation validate := (validate repr).
Abbreviation default_zone := (default_zone _unique_zones).
Abbreviation predict_route := (predict_route _unique_zones repr).
Abbreviation field_zone := (field_zone repr).

Lemma truthy_of_total kv t :
  field_int kv "total_households" = Ok t -> 0 < t -> truthy (JDict kv) = true.
Proof.
  destruct kv; [|reflexivity]. cbn. intros [= <-]. lia.
Qed.

Lemma predict_route_valid sm kv t c :
  field_int kv "total_households" = Ok t ->
  field_int kv "covered_households" = Ok c ->
  0 < t -> 0 <= c <= t ->
  predict_route sm (JDict kv) = respond sm t c (default_zone (field_zone kv)).
Proof.
  intros Ht Hc H0 H1. rewrite predict_route_unfold.
  rewrite (truthy_of_total kv t Ht H0). cbn [negb].
  rewrite validate_dict, Ht, Hc.
  destruct (Z.leb_spec t 0); [lia|].
  destruct (Z.ltb_spec c 0); [lia|].
  destruct (Z.ltb_spec t c); [lia|].
  cbn [orb app]. destruct (respond _ _ _ _); reflexivity.
Qed.

(** C4.  A request whose fields convert to [total] and [covered] with
    [total <= 0], [covered < 0] or [covered > total] is answered with a
    400 rejection; nothing is printed, so [predict_segregation] (whose first
    statement prints) is not entered, and the answer does not depend on the
    artifacts: neither the model nor the fallback estimate is reached. *)
Theorem C4_out_of_range_is_rejected sm data t c :
  rbind (get data "total_households" (JInt 0)) int = Ok t ->
  rbind (get data "covered_households" (JInt 0)) int = Ok c ->
  t <= 0 \/ c < 0 \/ t < c ->
  predict_route sm data =
  ([], Ok (if negb (truthy data) then no_input
           else if t <=? 0 then non_positive_total
                else covered_out_of_range)).
Proof.
  intros Ht Hc Hbad.
  destruct data as [| | | | | |kv]; try discriminate.
  cbn [get rbind] in Ht, Hc. fold (field_int kv "total_households") in Ht.
  fold (field_int kv "covered_households") in Hc.
  rewrite predict_route_unfold.
  destruct (negb (truthy (JDict kv))); [reflexivity|].
  rewrite validate_dict, Ht, Hc.
  destruct (Z.leb_spec t 0); [reflexivity|].
  destruct (Z.ltb_spec c 0); [reflexivity|].
  destruct (Z.ltb_spec t c); [reflexivity|]. lia.
Qed.

(** C8, in the form the code satisfies.  When [zone_name] is omitted, or is
    a string that is blank after trimming, a valid request is handled
    exactly as if it named the first entry of [_unique_zones], the zones of
    Data.csv, or "Unknown" when that list is empty; the answer is then never
    a 400 rejection and a success echoes the substitute. *)
Theorem C8_blank_zone_is_substituted sm kv t c :
  field_int kv "total_households" = Ok t ->
  field_int kv "covered_households" = Ok c ->
  0 < t -> 0 <= c <= t ->
  assoc kv "zone_name" = None \/
    (exists s, assoc kv "zone_name" = Some (JStr s) /\ strip s = "") ->
  let substitute :=
    match _unique_zones with first :: _ => first | [] => "Unknown" end in
  predict_route sm (JDict kv) = respond sm t c substitute /\
  (forall msg details,
     snd (predict_route sm (JDict kv)) <> Ok (Failure 400 msg details)) /\
  (forall l p i, predict_route sm (JDict kv) = (l, Ok (Success p i)) ->
                 zone_name i = substitute).
Proof.
  intros Ht Hc H0 H1 Hz substitute.
  assert (Hfz : field_zone kv = "").
  { unfold App.field_zone. destruct Hz as [->|(s & -> & Hs)]; [reflexivity|].
    exact Hs. }
  assert (E : predict_route sm (JDict kv) = respond sm t c substitute).
  { rewrite (predict_route_valid sm kv t c Ht Hc H0 H1), Hfz. reflexivity. }
  rewrite E. split; [reflexivity|]. rewrite respond_unfold.
  destruct (predict_segregation _ _) as [l [pc|e]].
  - destruct (rate pc t) as [sr|e]; [|split; [discriminate|discriminate]].
    destruct (int_of_float pc) as [p|e]; [|split; discriminate].
    split; [discriminate|]. intros l' p' i' [= _ <- <-]. reflexivity.
  - split; discriminate.
Qed.

(** C9.  Whenever the checks of lines 178-181 let a request through, its
    total is positive, so line 205 takes the branch that divides, the
    divisor [float(total)] is not zero and the division does not raise
    [ZeroDivisionError]; no run of the handler reports that exception. *)
Theorem C9_rate_never_divides_by_zero sm data :
  (forall lv t c z, validate data = (lv, Ok (inr (t, c, z))) ->
     0 < t /\
     forall pc,
       rate pc t <> Raise ZeroDivisionError /\
       rate pc t =
         rbind (float_of_int t) (fun ft =>
         rbind (float_truediv pc ft) (fun r =>
         round2 (float_mul r (Fin 100))))) /\
  snd (predict_route sm data) <> Ok (prediction_failed ZeroDivisionError).
Proof.
  split.
  - intros lv t c z Hv.
    destruct (validate_inr repr _ _ _ _ _ Hv) as (_ & kv & _ & _ & _ & _ & Ht & _).
    split; [assumption|]. intros pc. split; [|apply rate_unfold; assumption].
    intros H. apply (rate_raises _ _ _ Ht) in H. discriminate.
  - rewrite predict_route_unfold.
    destruct (negb (truthy data)); [discriminate|].
    destruct (validate data) as [lv [[rej|[[t c] z]]|e]] eqn:Hv;
      [|cbn [snd]|discriminate].
    + destruct data as [| | | | | |kv]; try discriminate.
      rewrite validate_dict in Hv.
      destruct (field_int kv "total_households") as [t'|[]];
        try discriminate; try (injection Hv as _ <-; discriminate).
      destruct (field_int kv "covered_households") as [c'|[]];
        try discriminate; try (injection Hv as _ <-; discriminate).
      destruct (t' <=? 0); [injection Hv as _ <-; discriminate|].
      destruct ((c' <? 0) || (t' <? c')); [injection Hv as _ <-; discriminate|].
      discriminate.
    + destruct (validate_inr repr _ _ _ _ _ Hv) as (_ & kv & _ & _ & _ & _ & Ht & _).
      rewrite respond_unfold.
      destruct (predict_segregation _ _) as [l [pc|e]] eqn:Ep.
      * destruct (rate pc t) as [sr|e] eqn:Er.
        -- destruct (int_of_float pc) as [p|e] eqn:Ei; [discriminate|].
           cbn [snd]. intros [= ->].
           destruct (int_of_float_raises _ _ Ei); discriminate.
        -- cbn [snd]. intros [= ->].
           apply (rate_raises _ _ _ Ht) in Er. discriminate.
      * cbn [snd]. intros [= ->].
        apply predict_segregation_raises in Ep. discriminate.
Qed.

(** C10, in the form the code satisfies.  The empty object is answered like
    a missing body.  In a non-empty object a missing [total_households] or
    [covered_households] is read as [0]: without [total_households] the
    request is rejected as a non-positive total, provided
    [covered_households], if present, converts to an [int]; without
    [covered_households] and with a positive total the request is answered
    as one with [covered_households = 0]. *)
Theorem C10_missing_field_reads_as_zero sm kv :
  (kv = [] -> predict_route sm (JDict kv) = ([], Ok no_input)) /\
  (kv <> [] -> assoc kv "total_households" = None ->
   forall c, field_int kv "covered_households" = Ok c ->
   predict_route sm (JDict kv) = ([], Ok non_positive_total)) /\
  (assoc kv "covered_households" = None ->
   forall t, field_int kv "total_households" = Ok t -> 0 < t ->
   predict_route sm (JDict kv) =
   respond sm t 0 (default_zone (field_zone kv))).
Proof.
  split; [|split].
  - intros ->. reflexivity.
  - intros Hkv Hmiss c Hc. rewrite predict_route_unfold.
    destruct kv as [|p kv]; [congruence|]. cbn [truthy negb].
    rewrite validate_dict, Hc. unfold field_int. rewrite Hmiss. reflexivity.
  - intros Hmiss t Ht H0.
    apply predict_route_valid; [assumption| |assumption|lia].
    unfold field_int. rewrite Hmiss. reflexivity.
Qed.

End RouteClaims.

(* ----------------------------------------------------------------- *)
(** *** The printed frame *)

Lemma filter_early l : early l -> filter is_frame_line l = [].
Proof.
  intros H. induction l as [|x l IH]; [reflexivity|]. cbn.
  destruct (H x (or_introl eq_refl)) as [->|(cs & ->)]; cbn;
    apply IH; intros y Hy; apply H; right; exact Hy.
Qed.

Lemma filter_scale_and_predict scaler model fr fc :
  filter is_frame_line (fst (scale_and_predict scaler model fr fc)) = [].
Proof.
  unfold scale_and_predict.
  destruct (sc_transform scaler fr) as [x|e]; [|reflexivity].
  destruct (predict model x); reflexivity.
Qed.

(** A run of [predict_segregation] prints its frame at most once; when it
    does, the artifacts were loaded, the printed columns are the expected
    columns, the printed values are those of [frame], and the [try] body
    ends by scaling exactly that frame. *)
Lemma predict_segregation_frame_lines sm d :
  filter is_frame_line (fst (predict_segregation sm d)) = [] \/
  exists model scaler cols ft fc zone_id,
    XGBoost_pkl sm = Ok model /\ scaler_pkl sm = Ok scaler /\
    columns_csv sm = Ok cols /\
    let fr := frame (input_features ft fc zone_id (get_default (Ward_No d) 1))
                    cols in
    filter is_frame_line (fst (predict_segregation sm d)) =
      [LogInputColumns cols; LogInputValues (map snd fr)] /\
    snd (predict_segregation_try sm d) =
      snd (scale_and_predict scaler model fr fc).
Proof.
  rewrite predict_segregation_unfold.
  destruct (predict_segregation_try_cases sm d)
    as [(model & le & scaler & cols & t & c & z & ft & fc & lz & zid &
         E1 & _ & E3 & E4 & _ & _ & _ & _ & _ & _ & Hlz & ->)|(l & e & -> & Hl)].
  - right. exists model, scaler, cols, ft, fc, zid.
    split; [assumption|]. split; [assumption|]. split; [assumption|].
    cbv zeta. split; [|reflexivity].
    set (fr := frame _ cols).
    assert (F : filter is_frame_line
                  (LogLoading :: LogExpectedColumns cols :: lz ++
                   LogInputColumns cols :: LogInputValues (map snd fr) ::
                   fst (scale_and_predict scaler model fr fc))%list
                = [LogInputColumns cols; LogInputValues (map snd fr)]).
    { cbn [filter is_frame_line]. rewrite filter_app, Hlz. cbn.
      rewrite filter_scale_and_predict. reflexivity. }
    destruct (snd (scale_and_predict scaler model fr fc)); cbn [fst].
    + exact F.
    + rewrite filter_app, F. reflexivity.
  - left. cbn [fst]. rewrite filter_app, (filter_early l Hl). reflexivity.
Qed.

Lemma frame_nth features cols n c :
  nth_error cols n = Some c ->
  nth_error (map snd (frame features cols)) n =
  Some (get_default (assoc features c) (CInt 0)).
Proof.
  intros H. unfold frame. rewrite map_map. cbn [snd].
  rewrite nth_error_map, H. reflexivity.
Qed.

Lemma printed_frame sm d cols vals :
  In (LogInputColumns cols) (fst (predict_segregation sm d)) ->
  In (LogInputValues vals) (fst (predict_segregation sm d)) ->
  exists model scaler ft fc zone_id,
    XGBoost_pkl sm = Ok model /\ scaler_pkl sm = Ok scaler /\
    columns_csv sm = Ok cols /\
    let fr := frame (input_features ft fc zone_id (get_default (Ward_No d) 1))
                    cols in
    vals = map snd fr /\
    snd (predict_segregation_try sm d) =
      snd (scale_and_predict scaler model fr fc).
Proof.
  intros Hc Hv.
  assert (Hc' : In (LogInputColumns cols)
                   (filter is_frame_line (fst (predict_segregation sm d))))
    by (apply filter_In; split; [assumption|reflexivity]).
  assert (Hv' : In (LogInputValues vals)
                   (filter is_frame_line (fst (predict_segregation sm d))))
    by (apply filter_In; split; [assumption|reflexivity]).
  destruct (predict_segregation_frame_lines sm d)
    as [E|(model & scaler & cols0 & ft & fc & zid & E1 & E2 & E3 & E & Hs)].
  - rewrite E in Hc'. destruct Hc'.
  - rewrite E in Hc', Hv'.
    destruct Hc' as [[= <-]|[[=]|[]]]. destruct Hv' as [[=]|[[= <-]|[]]].
    exists model, scaler, ft, fc, zid. repeat split; assumption.
Qed.

Section PipelineClaims.

Variable _unique_zones : list string.
Variable repr : json -> string.

Abbreviation validate := (validate repr).
Abbreviation default_zone := (default_zone _unique_zones).
Abbreviation predict_route := (predict_route _unique_zones repr).
Abbreviation field_zone := (field_zone repr).

Lemma validate_log data : fst (validate data) = [].
Proof.
  destruct data as [| | | | | |kv]; try reflexivity.
  rewrite validate_dict.
  destruct (field_int kv "total_households") as [t|[]]; try reflexivity.
  destruct (field_int kv "covered_households") as [c|[]]; reflexivity.
Qed.

Lemma respond_frame_lines sm t c z :
  filter is_frame_line (fst (respond sm t c z)) =
  filter is_frame_line (fst (predict_segregation sm (route_input t c z))).
Proof.
  rewrite respond_unfold.
  destruct (predict_segregation _ _) as [l [pc|e]]; cbn [fst].
  - destruct (rate pc t); [destruct (int_of_float pc)|]; cbn [fst];
      rewrite ?filter_app; cbn; rewrite ?app_nil_r; reflexivity.
  - rewrite filter_app; cbn; rewrite app_nil_r; reflexivity.
Qed.

Lemma predict_route_frame_lines sm data :
  filter is_frame_line (fst (predict_route sm data)) = [] \/
  exists t c z,
    filter is_frame_line (fst (predict_route sm data)) =
    filter is_frame_line (fst (predict_segregation sm (route_input t c z))).
Proof.
  rewrite predict_route_unfold.
  destruct (negb (truthy data)); [left; reflexivity|].
  pose proof (validate_log data) as Hl.
  destruct (validate data) as [lv [[rej|[[t c] z]]|e]]; cbn [fst] in *; subst lv.
  - left; reflexivity.
  - right. exists t, c, (default_zone z). cbn [app].
    apply respond_frame_lines.
  - left; reflexivity.
Qed.

(** A success of the handler comes from a valid request and a run of
    [predict_segregation] on the dictionary built from it. *)
Lemma predict_route_success sm data log p i :
  predict_route sm data = (log, Ok (Success p i)) ->
  exists pc,
    0 < total_households i /\
    0 <= covered_households i <= total_households i /\
    predict_segregation sm (route_input (total_households i)
                                        (covered_households i) (zone_name i))
      = (log, Ok pc) /\
    rate pc (total_households i) = Ok (segregation_rate p) /\
    int_of_float pc = Ok (predicted_households p) /\
    model_used p = "XGBoost".
Proof.
  rewrite predict_route_unfold.
  destruct (negb (truthy data)); [discriminate|].
  destruct (validate data) as [lv [[rej|[[t c] z]]|e]] eqn:Hv;
    [|cbn [snd]|discriminate].
  - intros [= -> ->].
    destruct data as [| | | | | |kv]; try discriminate.
    rewrite validate_dict in Hv.
    destruct (field_int kv "total_households") as [t'|[]]; try discriminate.
    destruct (field_int kv "covered_households") as [c'|[]]; try discriminate.
    destruct (t' <=? 0); [discriminate|].
    destruct ((c' <? 0) || (t' <? c')); discriminate.
  - destruct (validate_inr repr _ _ _ _ _ Hv) as (-> & kv & _ & _ & _ & _ & Ht & Hc).
    cbn [app]. rewrite respond_unfold.
    destruct (predict_segregation _ _) as [l [pc|e]] eqn:Ep; [|discriminate].
    destruct (rate pc t) as [sr|e] eqn:Er; [|discriminate].
    destruct (int_of_float pc) as [pr|e] eqn:Ei; [|discriminate].
    cbn [fst snd]. unfold success. intros [= <- <- <-]. cbn.
    exists pc. repeat split; try assumption; try lia.
Qed.

(** C1, in the form the code satisfies.  In a success response [segregation_rate] is
    [round(pred_count / total_households * 100, 2)] for the float
    [pred_count] returned by [predict_segregation], the estimate before
    truncation, and [predicted_households] is [int(pred_count)]. *)
Theorem C1_rate_of_unrounded_estimate sm data log p i :
  predict_route sm data = (log, Ok (Success p i)) ->
  exists pred_count ft r,
    snd (predict_segregation sm (route_input (total_households i)
                                             (covered_households i)
                                             (zone_name i)))
      = Ok pred_count /\
    float_of_int (total_households i) = Ok ft /\
    float_truediv pred_count ft = Ok r /\
    round2 (float_mul r (Fin 100)) = Ok (segregation_rate p) /\
    int_of_float pred_count = Ok (predicted_households p).
Proof.
  intros H.
  destruct (predict_route_success _ _ _ _ _ H) as (pc & Ht & _ & Ep & Er & Ei & _).
  rewrite rate_unfold in Er by assumption.
  destruct (float_of_int (total_households i)) as [ft|] eqn:E1; [|discriminate].
  cbn [rbind] in Er.
  destruct (float_truediv pc ft) as [r|] eqn:E2; [|discriminate].
  cbn [rbind] in Er.
  exists pc, ft, r. rewrite Ep. repeat split; assumption.
Qed.


(** C2, in the form the code satisfies.  For a valid request whose total converts to a float
    (it is below 2^1024 - 2^970), when the body of [predict_segregation]
    raises, whatever the exception, the handler still answers with a success
    whose [predicted_households] is [int(float(covered_households) * 0.7)]:
    70% of the covered count, truncated. *)
Theorem C2_fallback_is_truncated_70_percent sm kv t c e :
  field_int kv "total_households" = Ok t ->
  field_int kv "covered_households" = Ok c ->
  0 < t -> 0 <= c <= t -> t < OVER ->
  snd (predict_segregation_try sm
         (route_input t c (default_zone (field_zone kv)))) = Raise e ->
  exists log rate predicted fc,
    predict_route sm (JDict kv) =
      (log, Ok (success rate predicted t c (default_zone (field_zone kv)))) /\
    float_of_int c = Ok fc /\
    int_of_float (float_mul fc (float_lit 7 10)) = Ok predicted.
Proof.
  intros Ht Hc H0 H1 Hover Hraise.
  rewrite (predict_route_valid _ repr sm kv t c Ht Hc H0 H1), respond_unfold.
  set (d := route_input t c (default_zone (field_zone kv))) in *.
  rewrite predict_segregation_unfold.
  destruct (predict_segregation_try sm d) as [l [pc|e']]; [discriminate|].
  assert (Hc' : 0 <= c < OVER) by lia.
  destruct (fallback_ok d c eq_refl Hc') as [q Hq].
  rewrite Hq.
  destruct (rate_ok (Fin q) t (conj H0 Hover)) as [sr ->].
  rewrite fallback_unfold in Hq. cbn [snd] in Hq.
  change (get_default (Covered_Households d) 0) with c in Hq.
  destruct (float_of_int c) as [fc|] eqn:Ef; [|discriminate].
  cbn [rbind] in Hq. injection Hq as Hq.
  cbn [int_of_float].
  eexists _, sr, _, fc. split; [reflexivity|]. split; [reflexivity|].
  rewrite Hq. reflexivity.
Qed.

End PipelineClaims.

(* ----------------------------------------------------------------- *)
(** *** The zone encoder, the ward and the frame *)

(** The value of the [try] body: the zone name enters it only through the
    code [encode_zone] gives. *)
Lemma snd_predict_segregation_try sm d :
  snd (predict_segregation_try sm d) =
  rbind (XGBoost_pkl sm) (fun model =>
  rbind (zone_encoder_pkl sm) (fun le_zone =>
  rbind (scaler_pkl sm) (fun scaler =>
  rbind (columns_csv sm) (fun cols =>
  rbind (rbind (getitem (Total_Households d)) float_of_int) (fun ft =>
  rbind (rbind (getitem (Covered_Households d)) float_of_int) (fun fc =>
  rbind (getitem (Zone_Name d)) (fun z =>
  rbind (snd (encode_zone le_zone (strip z))) (fun zone_id =>
  snd (scale_and_predict scaler model
         (frame (input_features ft fc zone_id (get_default (Ward_No d) 1))
                cols) fc))))))))).
Proof.
  unfold predict_segregation_try. rewrite bind_print. cbn [snd].
  destruct (XGBoost_pkl sm) as [model|e]; [|reflexivity].
  rewrite bind_lift.
  destruct (zone_encoder_pkl sm) as [le|e]; [|reflexivity].
  rewrite bind_lift.
  destruct (scaler_pkl sm) as [scaler|e]; [|reflexivity].
  rewrite bind_lift.
  destruct (columns_csv sm) as [cols|e]; [|reflexivity].
  rewrite bind_lift, bind_print. cbn [snd rbind].
  destruct (rbind (getitem (Total_Households d)) float_of_int) as [ft|e];
    [|reflexivity].
  rewrite bind_lift.
  destruct (rbind (getitem (Covered_Households d)) float_of_int) as [fc|e];
    [|reflexivity].
  rewrite bind_lift. cbn [rbind].
  destruct (Zone_Name d) as [z|]; [|reflexivity].
  cbn [getitem rbind]. rewrite bind_lift.
  destruct (encode_zone_ok le (strip z)) as (lz & zone_id & Hz & _).
  rewrite Hz. cbn [bind snd rbind].
  rewrite select_fill. rewrite bind_lift, !bind_print. cbn [snd].
  unfold scale_and_predict.
  destruct (sc_transform scaler _) as [input_scaled|e]; [|reflexivity].
  rewrite bind_lift.
  destruct (predict model input_scaled) as [pred|e]; reflexivity.
Qed.

Lemma snd_predict_segregation sm d :
  snd (predict_segregation sm d) =
  match snd (predict_segregation_try sm d) with
  | Ok pc => Ok pc
  | Raise _ => snd (fallback d)
  end.
Proof.
  rewrite predict_segregation_unfold.
  destruct (predict_segregation_try sm d) as [l [pc|e]]; reflexivity.
Qed.

Lemma snd_respond sm t c z :
  snd (respond sm t c z) =
  match snd (predict_segregation sm (route_input t c z)) with
  | Raise e => Ok (prediction_failed e)
  | Ok pc =>
      match rate pc t with
      | Raise e => Ok (prediction_failed e)
      | Ok sr =>
          match int_of_float pc with
          | Raise e => Ok (prediction_failed e)
          | Ok p => Ok (success sr p t c z)
          end
      end
  end.
Proof.
  rewrite respond_unfold.
  destruct (predict_segregation _ _) as [l [pc|e]]; [|reflexivity].
  cbn [snd]. destruct (rate pc t); [|reflexivity].
  destruct (int_of_float pc); reflexivity.
Qed.

(** C5.  A zone name that is not among the encoder's classes is encoded
    as [0]; encoding returns a code whatever the encoder does, [0] when its
    [transform] raises; and the estimate, like the answer of the handler
    apart from the echoed name, is the one obtained for a known zone whose
    code is [0]. *)
Theorem C5_unknown_zone_is_code_zero sm le_zone d unknown reference :
  zone_encoder_pkl sm = Ok le_zone ->
  existsb (String.eqb (strip unknown)) (classes_ le_zone) = false ->
  existsb (String.eqb (strip reference)) (classes_ le_zone) = true ->
  le_transform le_zone (strip reference) = Ok 0 ->
  snd (encode_zone le_zone (strip unknown)) = Ok 0 /\
  (forall name, exists zone_id,
     snd (encode_zone le_zone name) = Ok zone_id /\
     (forall e, le_transform le_zone name = Raise e -> zone_id = 0)) /\
  snd (predict_segregation sm (set_zone d unknown)) =
    snd (predict_segregation sm (set_zone d reference)) /\
  (forall t c, exists r r',
     snd (respond sm t c unknown) = Ok r /\
     snd (respond sm t c reference) = Ok r' /\
     answer r = answer r').
Proof.
  intros Hle Hunk Href Hzero.
  assert (Eu : snd (encode_zone le_zone (strip unknown)) = Ok 0).
  { destruct (encode_zone_cases le_zone (strip unknown))
      as [[_ ->]|[[C _]|[C _]]]; [reflexivity|congruence|congruence]. }
  assert (Er : snd (encode_zone le_zone (strip reference)) = Ok 0).
  { destruct (encode_zone_cases le_zone (strip reference))
      as [[C _]|[[_ (id & T & ->)]|[_ (e & T & ->)]]];
      [congruence|cbn; congruence|reflexivity]. }
  assert (Eps : forall d', snd (predict_segregation sm (set_zone d' unknown)) =
                           snd (predict_segregation sm (set_zone d' reference))).
  { intros d'. rewrite !snd_predict_segregation, !snd_predict_segregation_try.
    rewrite !fallback_unfold. cbn [set_zone Total_Households Covered_Households
                                   Zone_Name Ward_No getitem rbind snd].
    rewrite Hle. cbn [rbind]. rewrite Eu, Er. reflexivity. }
  split; [exact Eu|]. split; [|split; [apply Eps|]].
  - intros name.
    destruct (encode_zone_cases le_zone name)
      as [[_ ->]|[[_ (id & T & ->)]|[_ (e & T & ->)]]].
    + exists 0. split; [reflexivity|reflexivity].
    + exists id. split; [reflexivity|]. intros e He. congruence.
    + exists 0. split; [reflexivity|reflexivity].
  - intros t c. rewrite !snd_respond.
    change (route_input t c unknown)
      with (set_zone (route_input t c unknown) unknown).
    change (route_input t c reference)
      with (set_zone (route_input t c unknown) reference).
    rewrite Eps.
    destruct (snd (predict_segregation sm _)) as [pc|e];
      [|do 2 eexists; split; [reflexivity|split; reflexivity]].
    destruct (rate pc t) as [sr|e];
      [|do 2 eexists; split; [reflexivity|split; reflexivity]].
    destruct (int_of_float pc) as [p|e];
      do 2 eexists; (split; [reflexivity|split; reflexivity]).
Qed.

(** C6, in the form the code satisfies.  Whenever a run prints its frame, the value in every
    column named "Ward No." is the ['Ward No.'] entry of [input_data], or
    [1] when there is none; the handler always stores [1] there, so under
    [predict_route] the value is [1] whatever the request contains. *)
Theorem C6_ward_feature sm :
  (forall d cols vals n,
     In (LogInputColumns cols) (fst (predict_segregation sm d)) ->
     In (LogInputValues vals) (fst (predict_segregation sm d)) ->
     nth_error cols n = Some "Ward No." ->
     nth_error vals n = Some (CInt (get_default (Ward_No d) 1))) /\
  (forall _unique_zones repr data cols vals n,
     In (LogInputColumns cols) (fst (predict_route _unique_zones repr sm data)) ->
     In (LogInputValues vals) (fst (predict_route _unique_zones repr sm data)) ->
     nth_error cols n = Some "Ward No." ->
     nth_error vals n = Some (CInt 1)).
Proof.
  assert (A : forall d cols vals n,
     In (LogInputColumns cols) (fst (predict_segregation sm d)) ->
     In (LogInputValues vals) (fst (predict_segregation sm d)) ->
     nth_error cols n = Some "Ward No." ->
     nth_error vals n = Some (CInt (get_default (Ward_No d) 1))).
  { intros d cols vals n Hc Hv Hn.
    destruct (printed_frame sm d cols vals Hc Hv)
      as (model & scaler & ft & fc & zid & _ & _ & _ & -> & _).
    rewrite (frame_nth _ _ _ _ Hn). reflexivity. }
  split; [exact A|].
  intros uz repr data cols vals n Hc Hv Hn.
  assert (Hc' : In (LogInputColumns cols)
                   (filter is_frame_line (fst (predict_route uz repr sm data))))
    by (apply filter_In; split; [assumption|reflexivity]).
  assert (Hv' : In (LogInputValues vals)
                   (filter is_frame_line (fst (predict_route uz repr sm data))))
    by (apply filter_In; split; [assumption|reflexivity]).
  destruct (predict_route_frame_lines uz repr sm data) as [E|(t & c & z & E)].
  - rewrite E in Hc'. destruct Hc'.
  - rewrite E in Hc', Hv'. apply filter_In in Hc', Hv'.
    apply (A (route_input t c z) cols vals n); tauto.
Qed.

(** C7.  Lines 69-76 turn any initial mapping and any list of expected
    columns into the frame of the specification: the expected names in
    their order, each with the mapping's value or [0], and nothing else.
    Whenever a run prints its frame, the printed columns are the expected
    columns read from columns.csv, the printed values are this frame's, and
    the scaler is applied to exactly this frame. *)
Theorem C7_frame_follows_schema :
  (forall features expected_columns,
     select_columns (fill_missing features expected_columns) expected_columns
       = Ok (frame features expected_columns) /\
     map fst (frame features expected_columns) = expected_columns /\
     (forall n c, nth_error expected_columns n = Some c ->
        nth_error (frame features expected_columns) n =
        Some (c, match assoc features c with
                 | Some v => v
                 | None => CInt 0
                 end))) /\
  (forall sm d cols vals,
     In (LogInputColumns cols) (fst (predict_segregation sm d)) ->
     In (LogInputValues vals) (fst (predict_segregation sm d)) ->
     exists model scaler ft fc zone_id,
       XGBoost_pkl sm = Ok model /\ scaler_pkl sm = Ok scaler /\
       columns_csv sm = Ok cols /\
       let fr := frame (input_features ft fc zone_id
                                       (get_default (Ward_No d) 1)) cols in
       vals = map snd fr /\
       snd (predict_segregation_try sm d) =
       rbind (sc_transform scaler fr) (fun input_scaled =>
       rbind (predict model input_scaled) (fun pred => Ok (clamp pred fc)))).
Proof.
  split.
  - intros features cols. split; [apply select_fill|]. split.
    + unfold frame. rewrite map_map. cbn [fst]. apply map_id.
    + intros n c Hn. unfold frame. rewrite nth_error_map, Hn. reflexivity.
  - intros sm d cols vals Hc Hv.
    destruct (printed_frame sm d cols vals Hc Hv)
      as (model & scaler & ft & fc & zid & E1 & E2 & E3 & E4 & E5).
    exists model, scaler, ft, fc, zid.
    split; [assumption|]. split; [assumption|]. split; [assumption|].
    cbv zeta. split; [assumption|]. rewrite E5. unfold scale_and_predict.
    destruct (sc_transform scaler _) as [x|e]; [|reflexivity].
    cbn [rbind]. destruct (predict model x); reflexivity.
Qed.

(* ----------------------------------------------------------------- *)
(** *** The claims on concrete requests *)

Ltac in_log := vm_compute; repeat first [left; reflexivity | right].

(** Against C1 as worded: with 1000 households, 800 covered and a model that
    predicts 640.5, the response carries [predicted_households = 640] and
    [segregation_rate = 64.05], while the formula on the integer gives
    [64.0]. *)
Lemma C1_counterexample :
  exists log p i,
    predict_route [] no_repr (sample_models (Fin (1281 # 2)))
                  (request 1000 800 "Adyar") = (log, Ok (Success p i)) /\
    predicted_households p = 640 /\
    segregation_rate p = float_lit 1281 20 /\
    spec_rate (predicted_households p) (total_households i) = Ok (Fin 64) /\
    spec_rate (predicted_households p) (total_households i)
      <> Ok (segregation_rate p).
Proof.
  do 3 eexists. split; [vm_compute; reflexivity|].
  split; [reflexivity|]. split; [vm_compute; reflexivity|].
  split; [vm_compute; reflexivity|]. vm_compute. discriminate.
Qed.

Lemma C1_witness :
  exists pred_count ft r,
    snd (predict_segregation (sample_models (Fin (1281 # 2)))
                             (route_input 1000 800 "Adyar")) = Ok pred_count /\
    float_of_int 1000 = Ok ft /\
    float_truediv pred_count ft = Ok r /\
    round2 (float_mul r (Fin 100)) = Ok (float_lit 1281 20) /\
    int_of_float pred_count = Ok 640.
Proof.
  apply (C1_rate_of_unrounded_estimate [] no_repr
           (sample_models (Fin (1281 # 2))) (request 1000 800 "Adyar")
           [LogLoading; LogExpectedColumns sample_columns;
            LogEncodedZone "Adyar" 0; LogInputColumns sample_columns;
            LogInputValues [CFloat (Fin 1000); CFloat (Fin 800); CInt 0;
                            CInt 1; CInt 0];
            LogPrediction (Fin (1281 # 2))]
           {| segregation_rate := float_lit 1281 20;
              predicted_households := 640;
              model_used := "XGBoost" |}
           {| total_households := 1000;
              covered_households := 800;
              zone_name := "Adyar" |}).
  vm_compute. reflexivity.
Defined.

(** Against C2 as worded: with one covered household and no artifacts the
    response carries [predicted_households = 0], the truncation of 0.7, where
    [round(0.7 * 1)] is [1]; with a total of 2^1024 and no artifacts the
    answer is the 500 "Prediction failed", not a success; and when only the
    encoder's [transform] fails, the zone code becomes [0] and the response
    carries the model's prediction, 600, not 70% of the 800 covered. *)
Lemma C2_counterexample :
  (exists log p i,
     predict_route [] no_repr missing_models (request 1 1 "Adyar")
       = (log, Ok (Success p i)) /\
     predicted_households p = 0 /\
     spec_fallback (covered_households i) = Ok 1) /\
  snd (predict_route [] no_repr missing_models (request (2 ^ 1024) 0 "Adyar"))
    = Ok (prediction_failed OverflowError) /\
  (exists log p i,
     predict_route [] no_repr
       {| XGBoost_pkl := Ok (constant_model (Fin 600));
          zone_encoder_pkl := Ok raising_encoder;
          scaler_pkl := Ok identity_scaler;
          columns_csv := Ok sample_columns |}
       (request 1000 800 "Adyar") = (log, Ok (Success p i)) /\
     In (LogZoneError (OtherError "corrupt encoder")) log /\
     predicted_households p = 600 /\
     spec_fallback (covered_households i) = Ok 560).
Proof.
  split; [|split].
  - do 3 eexists. split; [vm_compute; reflexivity|].
    split; [reflexivity|]. vm_compute. reflexivity.
  - vm_compute. reflexivity.
  - do 3 eexists. split; [vm_compute; reflexivity|].
    split; [cbn; auto|]. split; [reflexivity|]. vm_compute. reflexivity.
Qed.

Lemma C2_witness :
  exists log rate predicted fc,
    predict_route [] no_repr missing_models (request 1000 800 "Adyar") =
      (log, Ok (success rate predicted 1000 800 "Adyar")) /\
    float_of_int 800 = Ok fc /\
    int_of_float (float_mul fc (float_lit 7 10)) = Ok predicted.
Proof.
  apply (C2_fallback_is_truncated_70_percent [] no_repr missing_models
           (request_fields 1000 800 "Adyar") 1000 800
           (OtherError "FileNotFoundError"));
    try reflexivity; lia.
Defined.

(** C3 on a failing input: with 2^53 + 3 households, all covered, and a
    model that predicts 10^16, the clamp returns [float(2^53 + 3)], which is
    2^53 + 4, and the response carries one household more than are covered. *)
Theorem C3_clamp_exceeds_covered :
  exists log p i,
    predict_route [] no_repr (sample_models (Fin 10000000000000000))
                  (request 9007199254740995 9007199254740995 "Adyar")
      = (log, Ok (Success p i)) /\
    covered_households i = 9007199254740995 /\
    float_of_int (covered_households i) = Ok (Fin 9007199254740996) /\
    predicted_households p = 9007199254740996 /\
    covered_households i < predicted_households p.
Proof.
  do 3 eexists. split; [vm_compute; reflexivity|].
  split; [reflexivity|]. split; [vm_compute; reflexivity|].
  split; [reflexivity|]. reflexivity.
Qed.

Lemma C4_witness :
  predict_route [] no_repr missing_models (request 500 501 "Adyar")
  = ([], Ok covered_out_of_range).
Proof.
  apply (C4_out_of_range_is_rejected [] no_repr missing_models
           (request 500 501 "Adyar") 500 501);
    [reflexivity|reflexivity|lia].
Defined.

Lemma C5_witness :
  snd (encode_zone two_zone_encoder (strip "Guindy")) = Ok 0 /\
  snd (predict_segregation (sample_models (Fin 600))
         (set_zone (route_input 1000 800 "") "Guindy")) =
  snd (predict_segregation (sample_models (Fin 600))
         (set_zone (route_input 1000 800 "") " Adyar ")).
Proof.
  destruct (C5_unknown_zone_is_code_zero (sample_models (Fin 600))
              two_zone_encoder (route_input 1000 800 "") "Guindy" " Adyar "
              eq_refl eq_refl eq_refl eq_refl) as (H1 & _ & H3 & _).
  split; [exact H1|exact H3].
Defined.

(** Against C6 as worded: a request that supplies ward 5, under either
    name, still reaches the scaler with [1] in the "Ward No." column. *)
Lemma C6_counterexample :
  let data := JDict (request_fields 1000 800 "Adyar" ++
                     [("ward_number", JInt 5); ("Ward No.", JInt 5)]) in
  let log := fst (predict_route [] no_repr (sample_models (Fin 600)) data) in
  exists vals,
    In (LogInputColumns sample_columns) log /\
    In (LogInputValues vals) log /\
    nth_error sample_columns 3 = Some "Ward No." /\
    nth_error vals 3 = Some (CInt 1) /\
    nth_error vals 3 <> Some (CInt 5).
Proof.
  exists [CFloat (Fin 1000); CFloat (Fin 800); CInt 0; CInt 1; CInt 0].
  split; [in_log|]. split; [in_log|]. split; [reflexivity|].
  split; [reflexivity|]. discriminate.
Qed.

Lemma C6_witness :
  nth_error [CFloat (Fin 1000); CFloat (Fin 800); CInt 0; CInt 7; CInt 0] 3
  = Some (CInt 7).
Proof.
  apply (proj1 (C6_ward_feature (sample_models (Fin 600)))
           {| Total_Households := Some 1000; Covered_Households := Some 800;
              Zone_Name := Some "Adyar"; Ward_No := Some 7 |}
           sample_columns
           [CFloat (Fin 1000); CFloat (Fin 800); CInt 0; CInt 7; CInt 0] 3%nat);
    [in_log|in_log|reflexivity].
Defined.

Lemma C7_witness :
  exists model scaler ft fc zone_id,
    XGBoost_pkl (sample_models (Fin 600)) = Ok model /\
    scaler_pkl (sample_models (Fin 600)) = Ok scaler /\
    columns_csv (sample_models (Fin 600)) = Ok sample_columns /\
    let fr := frame (input_features ft fc zone_id 1) sample_columns in
    [CFloat (Fin 1000); CFloat (Fin 800); CInt 1; CInt 1; CInt 0]
      = map snd fr /\
    snd (predict_segregation_try (sample_models (Fin 600))
           (route_input 1000 800 "Anna Nagar")) =
    rbind (sc_transform scaler fr) (fun input_scaled =>
    rbind (predict model input_scaled) (fun pred => Ok (clamp pred fc))).
Proof.
  apply (proj2 C7_frame_follows_schema (sample_models (Fin 600))
           (route_input 1000 800 "Anna Nagar") sample_columns
           [CFloat (Fin 1000); CFloat (Fin 800); CInt 1; CInt 1; CInt 0]);
    in_log.
Defined.

(** Against C8 as worded, the catalog being the encoder's: with the classes
    "Adyar", "Anna Nagar" and a Data.csv that lists "Anna Nagar" first, a
    blank zone becomes "Anna Nagar"; with no Data.csv it becomes "Unknown"
    although the encoder knows two zones. *)
Lemma C8_counterexample :
  (exists log p i,
     predict_route ["Anna Nagar"; "Adyar"] no_repr (sample_models (Fin 600))
                   (request 1000 800 "  ") = (log, Ok (Success p i)) /\
     zone_name i = "Anna Nagar" /\
     spec_substitute (classes_ two_zone_encoder) = "Adyar") /\
  (exists log p i,
     predict_route [] no_repr (sample_models (Fin 600))
                   (request 1000 800 "  ") = (log, Ok (Success p i)) /\
     zone_name i = "Unknown" /\
     spec_substitute (classes_ two_zone_encoder) = "Adyar").
Proof.
  split; do 3 eexists; (split; [vm_compute; reflexivity|]);
    split; reflexivity.
Qed.

Lemma C8_witness :
  predict_route ["Anna Nagar"; "Adyar"] no_repr (sample_models (Fin 600))
                (JDict (request_fields 1000 800 "  "))
  = respond (sample_models (Fin 600)) 1000 800 "Anna Nagar".
Proof.
  apply (C8_blank_zone_is_substituted ["Anna Nagar"; "Adyar"] no_repr
           (sample_models (Fin 600)) (request_fields 1000 800 "  ") 1000 800);
    [reflexivity|reflexivity|lia|lia|].
  right. exists "  ". split; reflexivity.
Defined.

Lemma C9_witness :
  0 < 1000 /\
  forall pc,
    rate pc 1000 <> Raise ZeroDivisionError /\
    rate pc 1000 =
      rbind (float_of_int 1000) (fun ft =>
      rbind (float_truediv pc ft) (fun r =>
      round2 (float_mul r (Fin 100)))).
Proof.
  apply (proj1 (C9_rate_never_divides_by_zero [] no_repr missing_models
                  (request 1000 800 "Adyar")) [] 1000 800 "Adyar").
  reflexivity.
Defined.

(** Against C10 as worded: the empty object lacks [total_households] and is
    answered "No input data provided"; an object that lacks it and holds a
    [null] covered count is answered "Invalid input data".  Neither is the
    non-positive-total rejection. *)
Lemma C10_counterexample :
  predict_route [] no_repr missing_models (JDict []) = ([], Ok no_input) /\
  no_input <> non_positive_total /\
  predict_route [] no_repr missing_models
    (JDict [("covered_households", JNull)]) = ([], Ok invalid_input) /\
  invalid_input <> non_positive_total.
Proof.
  split; [reflexivity|]. split; [discriminate|].
  split; [reflexivity|discriminate].
Qed.

Lemma C10_witness :
  predict_route [] no_repr missing_models
    (JDict [("covered_households", JInt 3)]) = ([], Ok non_positive_total) /\
  predict_route [] no_repr missing_models
    (JDict [("total_households", JInt 10)]) =
  respond missing_models 10 0 "Unknown".
Proof.
  destruct (C10_missing_field_reads_as_zero [] no_repr missing_models
              [("covered_households", JInt 3)]) as (_ & H1 & _).
  destruct (C10_missing_field_reads_as_zero [] no_repr missing_models
              [("total_households", JInt 10)]) as (_ & _ & H2).
  split.
  - apply (H1 ltac:(discriminate) eq_refl 3 eq_refl).
  - apply (H2 eq_refl 10 eq_refl). lia.
Defined.

(* ----------------------------------------------------------------- *)
(** *** The scenarios of the specification *)

(** The handler always answers: every exception is caught by one of its
    [except] clauses. *)
Lemma predict_route_returns _unique_zones repr sm data :
  exists log r, predict_route _unique_zones repr sm data = (log, Ok r).
Proof.
  rewrite predict_route_unfold.
  destruct (negb (truthy data)); [eauto|].
  destruct (validate repr data) as [lv [[rej|[[t c] z]]|e]]; [eauto| |eauto].
  destruct (respond_returns sm t c (default_zone _unique_zones z))
    as (l & r & ->). cbn [fst snd]. eauto.
Qed.

(** A known zone, a model that predicts 612.4 of 800 covered households. *)
Example scenario_known_zone :
  predict_route ["Adyar"] no_repr (sample_models (Fin (3062 # 5)))
                (request 1000 800 "Anna Nagar")
  = ([LogLoading; LogExpectedColumns sample_columns;
      LogEncodedZone "Anna Nagar" 1; LogInputColumns sample_columns;
      LogInputValues [CFloat (Fin 1000); CFloat (Fin 800); CInt 1; CInt 1;
                      CInt 0];
      LogPrediction (Fin (3062 # 5))],
     Ok (success (float_lit 6124 100) 612 1000 800 "Anna Nagar")).
Proof. vm_compute. reflexivity. Qed.

(** An unknown zone is encoded as [0]; a prediction above the covered count
    is clamped to it. *)
Example scenario_unknown_zone :
  predict_route ["Adyar"] no_repr (sample_models (Fin 900))
                (request 500 500 "NotARealZone")
  = ([LogLoading; LogExpectedColumns sample_columns;
      LogEncodedZone "NotARealZone" 0; LogInputColumns sample_columns;
      LogInputValues [CFloat (Fin 500); CFloat (Fin 500); CInt 0; CInt 1;
                      CInt 0];
      LogPrediction (Fin 500)],
     Ok (success (Fin 100) 500 500 500 "NotARealZone")).
Proof. vm_compute. reflexivity. Qed.

(** A zero total is rejected before any division. *)
Example scenario_zero_total :
  predict_route ["Adyar"] no_repr (sample_models (Fin 900)) (request 0 0 "X")
  = ([], Ok non_positive_total).
Proof. reflexivity. Qed.

(** Without artifacts the estimate is 70% of the covered households. *)
Example scenario_missing_artifacts :
  predict_route ["Adyar"] no_repr missing_models (request 1000 800 "Adyar")
  = ([LogLoading; LogPredictError (OtherError "FileNotFoundError")],
     Ok (success (Fin 56) 560 1000 800 "Adyar")).
Proof. vm_compute. reflexivity. Qed.

(** A body that is not an object, and a covered count that [int()] cannot
    convert without overflow, end in the outer [except]. *)
Example scenario_unexpected :
  predict_route [] no_repr missing_models (JList [JInt 1])
  = ([LogUnexpected AttributeError], Ok unexpected_error) /\
  predict_route [] no_repr missing_models
    (JDict [("total_households", JInt 10);
            ("covered_households", JFloat (Inf false))])
  = ([LogUnexpected OverflowError], Ok unexpected_error).
Proof. split; reflexivity. Qed.

(* ----------------------------------------------------------------- *)
(** *** Further properties of [predict_route] *)

Section MoreRouteFacts.

Variable _unique_zones : list string.
Variable repr : json -> string.

Abbreviation validate := (validate repr).
Abbreviation default_zone := (default_zone _unique_zones).
Abbreviation predict_route := (predict_route _unique_zones repr).
Abbreviation field_zone := (field_zone repr).

(** X2.  A valid request is answered with a success exactly when its total
    converts to a float, that is below 2^1024 - 2^970, whatever the
    artifacts are and do; above, [pred_count / total] raises and the answer
    is the 500 "Prediction failed". *)
Theorem valid_request_outcome sm kv t c :
  field_int kv "total_households" = Ok t ->
  field_int kv "covered_households" = Ok c ->
  0 < t -> 0 <= c <= t ->
  (t < OVER ->
   exists log rate predicted,
     predict_route sm (JDict kv) =
     (log, Ok (success rate predicted t c (default_zone (field_zone kv))))) /\
  (OVER <= t ->
   snd (predict_route sm (JDict kv)) = Ok (prediction_failed OverflowError)).
Proof.
  intros Ht Hc H0 H1.
  rewrite (predict_route_valid _ repr sm kv t c Ht Hc H0 H1), respond_unfold.
  set (d := route_input t c (default_zone (field_zone kv))).
  split.
  - intros Hover.
    assert (Hc' : 0 <= c < OVER) by lia.
    destruct (predict_segregation_ok sm d c eq_refl Hc') as (log & q & ->).
    destruct (rate_ok (Fin q) t (conj H0 Hover)) as [sr ->].
    cbn [int_of_float]. eauto.
  - intros Hover.
    destruct (predict_segregation sm d) as [l [pc|e]] eqn:Ep.
    + rewrite rate_unfold by assumption.
      rewrite (float_of_int_overflow t Hover). reflexivity.
    + apply predict_segregation_raises in Ep. subst e. reflexivity.
Qed.

(** X3.  A body that is not a JSON object is answered "No input data provided"
    when it is falsy ([null], [false], [0], [""], [[]]) and with the 500
    "An unexpected error occurred" otherwise: [data.get] does not exist. *)
Theorem non_object_body sm data :
  (forall kv, data <> JDict kv) ->
  predict_route sm data =
  if truthy data then ([LogUnexpected AttributeError], Ok unexpected_error)
  else ([], Ok no_input).
Proof.
  intros H. rewrite predict_route_unfold, (validate_not_dict repr data H).
  destruct (truthy data); reflexivity.
Qed.

Lemma int_raises v e :
  int v = Raise e ->
  (e = OverflowError /\ exists s, v = JFloat (Inf s)) \/
  ((e = ValueError \/ e = TypeError) /\ forall s, v <> JFloat (Inf s)).
Proof.
  destruct v as [|b|z|x|str|l|kv]; cbn [int]; try discriminate.
  - intros [= <-]. right. split; [auto|discriminate].
  - destruct x as [q|sg|]; cbn; try discriminate.
    + intros [= <-]. left. split; [reflexivity|eauto].
    + intros [= <-]. right. split; [auto|discriminate].
  - unfold int_of_str. destruct (match _ with [] => None | _ => _ end);
      [discriminate|]. intros [= <-]. right. split; [auto|discriminate].
  - intros [= <-]. right. split; [auto|discriminate].
  - intros [= <-]. right. split; [auto|discriminate].
Qed.

(** X4.  A field that [int()] cannot convert is reported before any range
    check: "Invalid input data", unless the field is an infinite float, whose
    [OverflowError] escapes line 183 and ends in the 500 of the outer
    [except]. *)
Theorem unconvertible_field sm kv key v e :
  kv <> [] ->
  (key = "total_households" \/
   (key = "covered_households" /\
    exists t, field_int kv "total_households" = Ok t)) ->
  assoc kv key = Some v -> int v = Raise e ->
  ((exists s, v = JFloat (Inf s)) ->
   predict_route sm (JDict kv) =
   ([LogUnexpected OverflowError], Ok unexpected_error)) /\
  ((forall s, v <> JFloat (Inf s)) ->
   predict_route sm (JDict kv) = ([], Ok invalid_input)).
Proof.
  intros Hkv Hkey Hv He.
  assert (Hf : field_int kv key = Raise e) by (unfold field_int; rewrite Hv; exact He).
  assert (Hr : predict_route sm (JDict kv) =
               match on_conversion_error e with
               | (lv, Raise e') => ((lv ++ [LogUnexpected e'])%list, Ok unexpected_error)
               | (lv, Ok (inl rejection)) => (lv, Ok rejection)
               | (lv, Ok (inr _)) => (lv, Ok invalid_input)
               end).
  { rewrite predict_route_unfold. destruct kv as [|p0 kv0]; [congruence|].
    cbn [truthy negb]. rewrite validate_dict.
    destruct Hkey as [->|[-> [t Ht]]].
    - rewrite Hf. destruct e; reflexivity.
    - rewrite Ht, Hf. destruct e; reflexivity. }
  rewrite Hr.
  destruct (int_raises v e He) as [[-> Hinf]|[[->| ->] Hfin]].
  - split; [reflexivity|]. intros H. destruct Hinf as [s ->].
    exfalso. apply (H s). reflexivity.
  - split; [|reflexivity]. intros [s ->]. exfalso. apply (Hfin s). reflexivity.
  - split; [|reflexivity]. intros [s ->]. exfalso. apply (Hfin s). reflexivity.
Qed.

(** X5.  The answer and the printed lines depend on a JSON object only through
    [int()] of its two counts and the stripped [str()] of its zone: other
    keys are never read, and values with the same conversions are not told
    apart. *)
Theorem only_three_fields_are_read sm kv kv' :
  (kv = [] <-> kv' = []) ->
  field_int kv "total_households" = field_int kv' "total_households" ->
  field_int kv "covered_households" = field_int kv' "covered_households" ->
  field_zone kv = field_zone kv' ->
  predict_route sm (JDict kv) = predict_route sm (JDict kv').
Proof.
  intros He Ht Hc Hz. rewrite !predict_route_unfold, !validate_dict.
  rewrite Ht, Hc, Hz.
  assert (T : truthy (JDict kv) = truthy (JDict kv')).
  { destruct kv, kv'; try reflexivity.
    - destruct He as [He _]. discriminate (He eq_refl).
    - destruct He as [_ He]. discriminate (He eq_refl). }
  rewrite T. reflexivity.
Qed.


End MoreRouteFacts.

(* ----------------------------------------------------------------- *)
(** *** Ranges of the estimate and of the rate *)

Lemma of_exact_le_int x N :
  (0 <= x)%Q -> (x <= inject_Z N)%Q -> N < 2 ^ 53 ->
  exists r, of_exact x = Fin r /\ (0 <= r <= inject_Z N)%Q.
Proof.
  intros H0 HN H53. unfold of_exact.
  assert (HN53 : (inject_Z N < inject_Z (2 ^ 53))%Q)
    by (unfold Qlt; cbn [Qnum Qden inject_Z]; lia).
  assert (H53O : (inject_Z (2 ^ 53) < inject_Z OVER)%Q).
  { unfold Qlt; cbn [Qnum Qden inject_Z]. unfold OVER.
    destruct big_pows as (HA & _ & _ & E1024). rewrite E1024.
    change (2 ^ 54) with 18014398509481984.
    change (2 ^ 53) with 9007199254740992. lia. }
  assert (HO : (0 < inject_Z OVER)%Q)
    by (pose proof MAXF_lt_OVER; unfold Qlt; cbn [Qnum Qden inject_Z]; lia).
  destruct (round_Q_some x) as [r Hr]; [lra|lra|].
  rewrite Hr. exists r. split; [reflexivity|]. split.
  - apply (round_Q_nonneg _ _ H0 Hr).
  - apply (round_Q_le_int x N r H0 HN); [lra|exact Hr].
Qed.

Lemma rne_Q_bounds q N :
  (0 <= q)%Q -> (q <= inject_Z N)%Q -> 0 <= rne_Q q <= N.
Proof.
  intros H0 HN. unfold Qle in H0, HN. cbn [Qnum Qden inject_Z] in H0, HN.
  unfold rne_Q.
  assert (Hn : 0 <= Qnum q) by lia.
  rewrite Z.abs_eq by assumption.
  assert (0 <= rne (Qnum q) (Z.pos (Qden q)) <= N)
    by (split; [apply rne_nonneg; lia|apply rne_le; lia]).
  destruct (Z.eq_dec (Qnum q) 0) as [E|E].
  - rewrite E. cbn. lia.
  - rewrite Z.sgn_pos by lia. lia.
Qed.

Lemma round2_le_int q N :
  (0 <= q)%Q -> (q <= inject_Z N)%Q -> N < 2 ^ 53 ->
  exists r, round2 (Fin q) = Ok (Fin r) /\ (0 <= r <= inject_Z N)%Q.
Proof.
  intros H0 HN H53. cbn [round2].
  assert (HK : 0 <= rne_Q (q * 100) <= 100 * N).
  { apply rne_Q_bounds; [lra|].
    replace (inject_Z (100 * N)) with (inject_Z 100 * inject_Z N)%Q
      by (unfold Qmult, inject_Z; cbn; reflexivity).
    change (inject_Z 100) with 100%Q. lra. }
  set (K := rne_Q (q * 100)) in *.
  assert (Hx0 : (0 <= K # 100)%Q) by (unfold Qle; cbn; lia).
  assert (HxN : (K # 100 <= inject_Z N)%Q) by (unfold Qle; cbn; lia).
  destruct (of_exact_le_int (K # 100) N Hx0 HxN H53) as (r & Hr & B).
  unfold of_exact in Hr.
  destruct (round_Q (K # 100)) as [r'|]; [|discriminate].
  injection Hr as ->. eauto.
Qed.

Section RangeFacts.

Variable _unique_zones : list string.
Variable repr : json -> string.

Abbreviation default_zone := (default_zone _unique_zones).
Abbreviation predict_route := (predict_route _unique_zones repr).
Abbreviation field_zone := (field_zone repr).

(** X6.  With a total of at most 2^53 the rate of a success is a percentage: a
    finite float between 0 and 100. *)
Theorem rate_is_a_percentage sm data log p i :
  predict_route sm data = (log, Ok (Success p i)) ->
  total_households i <= 2 ^ 53 ->
  exists q, segregation_rate p = Fin q /\ (0 <= q <= 100)%Q.
Proof.
  intros H H53.
  destruct (predict_route_success _ _ _ _ _ _ _ H)
    as (pc & Ht & Hc & Ep & Er & _ & _).
  destruct (predict_segregation_value sm
              (route_input (total_households i) (covered_households i)
                           (zone_name i))
              (covered_households i) log pc eq_refl (proj1 Hc) Ep)
    as (q0 & -> & [Q0 _] & Q2).
  specialize (Q2 ltac:(lia)).
  set (t := total_households i) in *. set (c := covered_households i) in *.
  rewrite rate_unfold in Er by assumption.
  rewrite (float_of_int_exact t ltac:(lia)) in Er. cbn [rbind] in Er.
  assert (Htq : (0 < inject_Z t)%Q) by (unfold Qlt; cbn; lia).
  assert (Hct : (inject_Z c <= inject_Z t)%Q) by (unfold Qle; cbn; lia).
  unfold float_truediv, Qzero in Er. cbn [Qnum inject_Z] in Er.
  destruct (Z.eqb_spec t 0) as [E|_]; [lia|]. cbn [rbind] in Er.
  destruct (of_exact_le_int (q0 / inject_Z t) 1) as (r1 & Hr1 & B1).
  { apply Qle_shift_div_l; [assumption|lra]. }
  { apply Qle_shift_div_r; [assumption|]. change (inject_Z 1) with 1%Q. lra. }
  { reflexivity. }
  rewrite Hr1 in Er. cbn [float_mul] in Er.
  destruct (of_exact_le_int (r1 * 100) 100) as (r2 & Hr2 & B2).
  { lra. }
  { change (inject_Z 1) with 1%Q in B1. change (inject_Z 100) with 100%Q. lra. }
  { reflexivity. }
  rewrite Hr2 in Er.
  destruct (round2_le_int r2 100 (proj1 B2) (proj2 B2) eq_refl) as (r3 & Hr3 & B3).
  rewrite Hr3 in Er. injection Er as <-. exists r3. split; [reflexivity|].
  exact B3.
Qed.

Lemma int_of_float_ge q N :
  (0 <= q)%Q -> (inject_Z N <= q)%Q ->
  exists z, int_of_float (Fin q) = Ok z /\ N <= z.
Proof.
  intros H0 HN. cbn [int_of_float]. eexists; split; [reflexivity|].
  unfold Qle in H0, HN. cbn [Qnum Qden inject_Z] in H0, HN.
  rewrite Z.quot_div_nonneg by lia.
  apply Z.div_le_lower_bound; lia.
Qed.

(** 70% of a covered count of at most 2^53, as the fallback computes it:
    between one below the floor and the ceiling of the exact 70%. *)
Lemma fallback_estimate_bounds c :
  0 <= c <= 2 ^ 53 ->
  exists q z,
    float_mul (Fin (inject_Z c)) (float_lit 7 10) = Fin q /\
    int_of_float (Fin q) = Ok z /\
    7 * c / 10 - 1 <= z <= (7 * c + 9) / 10.
Proof.
  intros Hc. rewrite float_lit_0_7. cbn [float_mul].
  set (x := (inject_Z c * (3152519739159347 # 4503599627370496))%Q).
  assert (Hcq : (0 <= inject_Z c)%Q) by (unfold Qle; cbn; lia).
  assert (Hx0 : (0 <= x)%Q) by (unfold x; lra).
  assert (Hup : (x <= inject_Z ((7 * c + 9) / 10))%Q).
  { unfold x, Qle. cbn [Qnum Qden inject_Z Qmult].
    pose proof (Z.div_mod (7 * c + 9) 10 ltac:(lia)).
    pose proof (Z.mod_pos_bound (7 * c + 9) 10 ltac:(lia)). lia. }
  assert (Hlo : (inject_Z (7 * c / 10 - 1) <= x)%Q).
  { unfold x, Qle. cbn [Qnum Qden inject_Z Qmult].
    pose proof (Z.div_mod (7 * c) 10 ltac:(lia)).
    pose proof (Z.mod_pos_bound (7 * c) 10 ltac:(lia)).
    change (2 ^ 53) with 9007199254740992 in Hc. lia. }
  assert (H53 : (x < inject_Z (2 ^ 53))%Q).
  { unfold x, Qlt. cbn [Qnum Qden inject_Z Qmult].
    change (2 ^ 53) with 9007199254740992 in *. lia. }
  assert (HN53 : (7 * c + 9) / 10 < 2 ^ 53).
  { apply Z.div_lt_upper_bound; [lia|].
    change (2 ^ 53) with 9007199254740992 in *. lia. }
  destruct (of_exact_le_int x _ Hx0 Hup HN53) as (q & Hq & [B0 B1]).
  rewrite Hq. unfold of_exact in Hq.
  destruct (round_Q x) as [q'|] eqn:R; [|discriminate]. injection Hq as ->.
  pose proof (round_Q_ge_int x _ q Hx0 Hlo H53 R) as B2.
  destruct (int_of_float_bounds q _ B0 B1) as (z & Hz & _ & Z1).
  destruct (int_of_float_ge q _ B0 B2) as (z' & Hz' & Z2).
  rewrite Hz in Hz'. injection Hz' as <-.
  exists q, z. split; [reflexivity|]. split; [assumption|lia].
Qed.

(** X7.  When the body of [predict_segregation] raises, a valid request with a
    covered count of at most 2^53 is answered with a count within one
    household of 70% of the covered count: at least [floor(0.7 c) - 1], at
    most [ceil(0.7 c)]. *)
Theorem fallback_within_one_household sm kv t c e :
  field_int kv "total_households" = Ok t ->
  field_int kv "covered_households" = Ok c ->
  0 < t -> 0 <= c <= t -> t < OVER -> c <= 2 ^ 53 ->
  snd (predict_segregation_try sm
         (route_input t c (default_zone (field_zone kv)))) = Raise e ->
  exists log rate predicted,
    predict_route sm (JDict kv) =
      (log, Ok (success rate predicted t c (default_zone (field_zone kv)))) /\
    7 * c / 10 - 1 <= predicted <= (7 * c + 9) / 10.
Proof.
  intros Ht Hc H0 H1 Hover H53 Hraise.
  rewrite (predict_route_valid _ repr sm kv t c Ht Hc H0 H1), respond_unfold.
  set (d := route_input t c (default_zone (field_zone kv))) in *.
  rewrite predict_segregation_unfold.
  destruct (predict_segregation_try sm d) as [l [pc|e']]; [discriminate|].
  rewrite fallback_unfold. cbn [snd].
  change (get_default (Covered_Households d) 0) with c.
  rewrite (float_of_int_exact c ltac:(lia)). cbn [rbind].
  destruct (fallback_estimate_bounds c ltac:(lia)) as (q & z & -> & Hz & B).
  destruct (rate_ok (Fin q) t (conj H0 Hover)) as [sr ->].
  rewrite Hz. eauto.
Qed.

End RangeFacts.

(* ----------------------------------------------------------------- *)
(** *** [predict_segregation] called on an incomplete mapping *)

Lemma fallback_zero d :
  get_default (Covered_Households d) 0 = 0 -> snd (fallback d) = Ok (Fin 0).
Proof. intros E. rewrite fallback_unfold, E. reflexivity. Qed.

(** X8.  A mapping that lacks 'Total_Households', 'Covered_Households' or
    'Zone_Name' makes the body raise (whatever the artifacts are), so the
    estimate is the fallback's: 70% of the covered count, and [0.0] when it
    is the covered count that is missing.  The lookup error itself never
    leaves [predict_segregation]. *)
Theorem missing_key_falls_back sm d :
  Total_Households d = None \/ Covered_Households d = None \/
  Zone_Name d = None ->
  (exists e, snd (predict_segregation_try sm d) = Raise e) /\
  snd (predict_segregation sm d) = snd (fallback d) /\
  (Covered_Households d = None ->
   snd (predict_segregation sm d) = Ok (Fin 0)).
Proof.
  intros H.
  assert (R : exists e, snd (predict_segregation_try sm d) = Raise e).
  { rewrite snd_predict_segregation_try.
    destruct (XGBoost_pkl sm); [|cbn; eauto].
    destruct (zone_encoder_pkl sm); [|cbn; eauto].
    destruct (scaler_pkl sm); [|cbn; eauto].
    destruct (columns_csv sm); [|cbn; eauto].
    cbn [rbind].
    destruct (Total_Households d) as [t|]; [|cbn; eauto].
    cbn [getitem rbind].
    destruct (float_of_int t); [|cbn; eauto]. cbn [rbind].
    destruct (Covered_Households d) as [c|]; [|cbn; eauto].
    cbn [getitem rbind].
    destruct (float_of_int c); [|cbn; eauto]. cbn [rbind].
    destruct (Zone_Name d) as [z|]; [|cbn; eauto].
    destruct H as [H|[H|H]]; discriminate. }
  split; [exact R|].
  destruct R as [e R].
  assert (F : snd (predict_segregation sm d) = snd (fallback d))
    by (rewrite snd_predict_segregation, R; reflexivity).
  split; [exact F|].
  intros Hc. rewrite F. apply fallback_zero. rewrite Hc. reflexivity.
Qed.

(* ----------------------------------------------------------------- *)
(** *** The model path *)








Section ModelPath.

Variable _unique_zones : list string.
Variable repr : json -> string.

Abbreviation default_zone := (default_zone _unique_zones).
Abbreviation predict_route := (predict_route _unique_zones repr).
Abbreviation field_zone := (field_zone repr).





End ModelPath.

(* ----------------------------------------------------------------- *)
(** *** The answers of [predict_route] *)

Section AnswerFacts.

Variable _unique_zones : list string.
Variable repr : json -> string.

Abbreviation validate := (validate repr).
Abbreviation default_zone := (default_zone _unique_zones).
Abbreviation predict_route := (predict_route _unique_zones repr).
Abbreviation field_zone := (field_zone repr).

Lemma validate_inl data lv rej :
  validate data = (lv, Ok (inl rej)) ->
  rej = invalid_input \/ rej = non_positive_total \/
  rej = covered_out_of_range.
Proof.
  destruct data as [| | | | | |kv]; try discriminate.
  rewrite validate_dict.
  destruct (field_int kv "total_households") as [t|e].
  2:{ destruct e; cbn [on_conversion_error]; intros H;
      first [discriminate H|injection H as _ <-; auto]. }
  destruct (field_int kv "covered_households") as [c|e].
  2:{ destruct e; cbn [on_conversion_error]; intros H;
      first [discriminate H|injection H as _ <-; auto]. }
  destruct (t <=? 0); [intros [= _ <-]; auto|].
  destruct ((c <? 0) || (t <? c)); [intros [= _ <-]; auto|discriminate].
Qed.

(** X12.  Every body is answered, with a success, with one of five fixed
    rejections, or with the 500 "Prediction failed"; the last one only
    reports an [OverflowError], and only for a total of at least
    2^1024 - 2^970. *)
Theorem answers_are_classified sm data :
  exists log r, predict_route sm data = (log, Ok r) /\
    ((exists p i, r = Success p i) \/
     In r [no_input; invalid_input; non_positive_total; covered_out_of_range;
           unexpected_error] \/
     (r = prediction_failed OverflowError /\
      exists kv t, data = JDict kv /\
        field_int kv "total_households" = Ok t /\ OVER <= t)).
Proof.
  rewrite predict_route_unfold.
  destruct (negb (truthy data)).
  { do 2 eexists. split; [reflexivity|]. right; left. cbn [In]. auto. }
  destruct (validate data) as [lv [[rej|[[t c] z]]|e]] eqn:Hv.
  - do 2 eexists. split; [reflexivity|]. right; left.
    destruct (validate_inl _ _ _ Hv) as [-> | [-> | ->]]; cbn [In]; auto 10.
  - destruct (validate_inr _ _ _ _ _ _ Hv)
      as (-> & kv & -> & Et & Ec & -> & H0 & H1).
    rewrite respond_unfold.
    set (d := route_input t c (default_zone (field_zone kv))).
    destruct (predict_segregation sm d) as [l [pc|e]] eqn:Ep.
    + destruct (rate pc t) as [sr|e] eqn:Er.
      * destruct (int_of_float pc) as [p|e] eqn:Ei.
        -- cbn [fst snd]. do 2 eexists. split; [reflexivity|]. left.
           unfold success. eauto.
        -- exfalso.
           destruct (predict_segregation_value sm d c l pc eq_refl (proj1 H1) Ep)
             as (q & -> & _). discriminate.
      * cbn [fst snd]. do 2 eexists. split; [reflexivity|]. right; right.
        pose proof (rate_raises _ _ _ H0 Er); subst e.
        split; [reflexivity|]. exists kv, t.
        split; [reflexivity|]. split; [assumption|].
        destruct (Z_lt_le_dec t OVER) as [Lt|Ge]; [|assumption].
        destruct (rate_ok pc t (conj H0 Lt)) as [sr E']. congruence.
    + cbn [fst snd]. do 2 eexists. split; [reflexivity|]. right; right.
      pose proof (predict_segregation_raises _ _ _ _ Ep); subst e.
      split; [reflexivity|]. exists kv, t.
      split; [reflexivity|]. split; [assumption|].
      destruct (Z_lt_le_dec t OVER) as [Lt|Ge]; [|assumption].
      destruct (predict_segregation_ok sm d c eq_refl ltac:(lia))
        as (log & q & E'). congruence.
  - do 2 eexists. split; [reflexivity|]. right; left. cbn [In]. auto 10.
Qed.

(** A valid request whose [try] body raises is answered from the
    fallback. *)
Lemma fallback_answer sm kv t c e :
  field_int kv "total_households" = Ok t ->
  field_int kv "covered_households" = Ok c ->
  0 < t -> 0 <= c <= t -> t < OVER ->
  snd (predict_segregation_try sm
         (route_input t c (default_zone (field_zone kv)))) = Raise e ->
  exists log fc sr z,
    float_of_int c = Ok fc /\
    rate (float_mul fc (float_lit 7 10)) t = Ok sr /\
    int_of_float (float_mul fc (float_lit 7 10)) = Ok z /\
    predict_route sm (JDict kv) =
      (log, Ok (success sr z t c (default_zone (field_zone kv)))).
Proof.
  intros Ht Hc H0 H1 Hover Hraise.
  rewrite (predict_route_valid _ repr sm kv t c Ht Hc H0 H1), respond_unfold.
  set (d := route_input t c (default_zone (field_zone kv))) in *.
  rewrite predict_segregation_unfold.
  destruct (predict_segregation_try sm d) as [l [pc|e']]; [discriminate|].
  rewrite fallback_unfold. cbn [snd].
  change (get_default (Covered_Households d) 0) with c.
  destruct (float_of_int_ok c ltac:(lia)) as [rc Fc]. rewrite Fc. cbn [rbind].
  destruct (float_of_int_spec _ _ Fc) as (rc' & Erc & [_ Hi] & Lo & _).
  injection Erc as <-.
  destruct (float_mul_0_7 rc (conj (Lo ltac:(lia)) Hi)) as (q & Eq & _).
  rewrite Eq.
  destruct (rate_ok (Fin q) t (conj H0 Hover)) as [sr Er]. rewrite Er.
  cbn [int_of_float]. do 4 eexists.
  split; [reflexivity|]. rewrite Eq. split; [exact Er|].
  split; reflexivity.
Qed.

End AnswerFacts.

(* ----------------------------------------------------------------- *)
(** *** The zones of Data.csv *)







(* ----------------------------------------------------------------- *)
(** *** [health_check] *)

Lemma filter_nil_iff {A} (f : A -> bool) l :
  filter f l = [] <-> forall x, In x l -> f x = false.
Proof.
  induction l as [|a l IH]; cbn [filter In]; [tauto|].
  destruct (f a) eqn:E.
  - split; [discriminate|]. intros H. rewrite (H a) in E by auto. discriminate.
  - rewrite IH. split.
    + intros H x [<-|Hx]; auto.
    + intros H x Hx. apply H. auto.
Qed.

(** X15.  [/health] answers "healthy" exactly when the five required files
    exist, whether or not Data.csv can then be read (that only sets
    [data_loaded]); otherwise it answers 500 with the files that do not
    exist, and only those. *)
Theorem health_reports_missing_files path_exists data_readable :
  ((forall f, In f required_files -> path_exists f = true) /\
   health_check path_exists data_readable =
     Healthy "healthy" data_readable "1.0" endpoints) \/
  (exists missing,
     health_check path_exists data_readable =
       Unhealthy "error" "Required files missing" missing /\
     missing <> [] /\ NoDup missing /\
     forall f, In f missing <->
               In f required_files /\ path_exists f = false).
Proof.
  unfold health_check.
  destruct (filter (fun f => negb (path_exists f)) required_files)
    as [|m rest] eqn:F.
  - left. split; [|reflexivity]. intros f Hf.
    pose proof (proj1 (filter_nil_iff _ _) F f Hf) as E. cbv beta in E.
    destruct (path_exists f); [reflexivity|discriminate].
  - right. exists (m :: rest). split; [reflexivity|].
    split; [discriminate|]. rewrite <- F. split.
    + apply NoDup_filter.
      assert (E : nodup string_dec required_files = required_files)
        by (vm_compute; reflexivity).
      rewrite <- E. apply NoDup_nodup.
    + intros f. rewrite filter_In.
      destruct (path_exists f); cbn [negb]; intuition discriminate.
Qed.

Lemma load_failure_raises sm d :
  (exists e, XGBoost_pkl sm = Raise e) \/
  (exists e, zone_encoder_pkl sm = Raise e) \/
  (exists e, scaler_pkl sm = Raise e) \/
  (exists e, columns_csv sm = Raise e) ->
  exists e, snd (predict_segregation_try sm d) = Raise e.
Proof.
  intros H. rewrite snd_predict_segregation_try.
  destruct (XGBoost_pkl sm); [|cbn; eauto].
  destruct (zone_encoder_pkl sm); [|cbn; eauto].
  destruct (scaler_pkl sm); [|cbn; eauto].
  destruct (columns_csv sm); [|cbn; eauto].
  destruct H as [[e H]|[[e H]|[[e H]|[e H]]]]; discriminate.
Qed.

(** X16.  When [/health] lists one of the model artifacts as missing, [/predict]
    still answers every valid request with a success: the count is the 70%
    estimate [int(float(covered) * 0.7)], within one household of 70% for
    counts up to 2^53. *)
Theorem missing_artifact_means_fallback
    _unique_zones repr path_exists data_readable sm st msg missing f kv t c :
  health_check path_exists data_readable = Unhealthy st msg missing ->
  In f missing -> f <> "Data.csv" ->
  absent_files_fail path_exists sm ->
  field_int kv "total_households" = Ok t ->
  field_int kv "covered_households" = Ok c ->
  0 < t -> 0 <= c <= t -> t < OVER ->
  exists log fc sr z,
    float_of_int c = Ok fc /\
    int_of_float (float_mul fc (float_lit 7 10)) = Ok z /\
    predict_route _unique_zones repr sm (JDict kv) =
      (log, Ok (success sr z t c
                  (default_zone _unique_zones (field_zone repr kv)))) /\
    (c <= 2 ^ 53 -> 7 * c / 10 - 1 <= z <= (7 * c + 9) / 10).
Proof.
  intros Hh Hf Hd (A1 & A2 & A3 & A4) Ht Hc H0 H1 Hover.
  unfold health_check in Hh.
  destruct (filter (fun f => negb (path_exists f)) required_files)
    as [|m rest] eqn:F; [discriminate|].
  injection Hh as _ _ <-. rewrite <- F in Hf.
  apply filter_In in Hf. destruct Hf as [Hreq Hex].
  apply Bool.negb_true_iff in Hex.
  assert (R : exists e, snd (predict_segregation_try sm
                (route_input t c
                   (default_zone _unique_zones (field_zone repr kv))))
              = Raise e).
  { apply load_failure_raises. unfold required_files in Hreq. cbn [In] in Hreq.
    destruct Hreq as [<-|[<-|[<-|[<-|[E|[]]]]]]; auto.
    exfalso. apply Hd. symmetry. exact E. }
  destruct R as [e R].
  destruct (fallback_answer _unique_zones repr sm kv t c e Ht Hc H0 H1 Hover R)
    as (log & fc & sr & z & Fc & _ & Ez & E).
  exists log, fc, sr, z. repeat (split; [assumption|]).
  intros H53.
  rewrite (float_of_int_exact c ltac:(lia)) in Fc. injection Fc as <-.
  destruct (fallback_estimate_bounds c ltac:(lia)) as (q & z' & Eq & Ez' & B).
  rewrite Eq in Ez. rewrite Ez in Ez'. injection Ez' as <-. exact B.
Qed.

(* ----------------------------------------------------------------- *)
(** *** [dashboard_route]: the header check and the city rates *)






(** X18.  A city rate is a percentage: for [0 <= part <= total] with a positive
    total of any size it is a finite float between 0 and 100, and nothing is
    raised; a total that is not positive gives the [int] 0 without
    dividing. *)
Theorem city_rate_is_a_percentage part total :
  (total <= 0 -> city_rate part total = Ok (CInt 0)) /\
  (0 < total -> 0 <= part <= total ->
   exists q, city_rate part total = Ok (CFloat (Fin q)) /\ (0 <= q <= 100)%Q).
Proof.
  unfold city_rate. split.
  - intros H. destruct (Z.ltb_spec 0 total); [lia|reflexivity].
  - intros H0 H1. destruct (Z.ltb_spec 0 total); [|lia].
    unfold int_truediv. destruct total as [|pt|pt]; try lia.
    assert (Q0 : (0 <= part # pt)%Q) by (unfold Qle; cbn; lia).
    assert (Q1 : (part # pt <= inject_Z 1)%Q) by (unfold Qle; cbn; lia).
    destruct (of_exact_le_int (part # pt) 1 Q0 Q1 eq_refl) as (r1 & Hr1 & B1).
    unfold of_exact in Hr1.
    destruct (round_Q (part # pt)) as [r'|]; [|discriminate].
    injection Hr1 as ->. cbn [rbind float_mul].
    destruct (of_exact_le_int (r1 * 100) 100) as (r2 & Hr2 & B2).
    { lra. }
    { change (inject_Z 1) with 1%Q in B1. change (inject_Z 100) with 100%Q.
      lra. }
    { reflexivity. }
    rewrite Hr2.
    destruct (round2_le_int r2 100 (proj1 B2) (proj2 B2) eq_refl)
      as (r3 & Hr3 & B3).
    rewrite Hr3. cbn [rbind]. exists r3. split; [reflexivity|exact B3].
Qed.

(* ----------------------------------------------------------------- *)
(** *** The theorems above on the sample artifacts *)

Lemma valid_request_outcome_witness :
  (exists log rate predicted,
     predict_route ["Adyar"] no_repr missing_models (request 1000 800 "Adyar") =
     (log, Ok (success rate predicted 1000 800 "Adyar"))) /\
  snd (predict_route ["Adyar"] no_repr missing_models (request OVER 0 "Adyar"))
  = Ok (prediction_failed OverflowError).
Proof.
  split.
  - apply (proj1 (valid_request_outcome ["Adyar"] no_repr missing_models
                    (request_fields 1000 800 "Adyar") 1000 800
                    eq_refl eq_refl eq_refl ltac:(lia))).
    reflexivity.
  - destruct (valid_request_outcome ["Adyar"] no_repr missing_models
                (request_fields OVER 0 "Adyar") OVER 0) as [_ H];
      [reflexivity|reflexivity|vm_compute; reflexivity
      |split; [apply Z.le_refl|vm_compute; discriminate]|].
    apply H. apply Z.le_refl.
Defined.

Lemma non_object_body_witness :
  predict_route [] no_repr missing_models (JStr "abc")
  = ([LogUnexpected AttributeError], Ok unexpected_error).
Proof.
  apply (non_object_body [] no_repr missing_models (JStr "abc")).
  intros kv. discriminate.
Defined.

Lemma unconvertible_field_witness :
  predict_route [] no_repr missing_models
    (JDict [("total_households", JStr "many")]) = ([], Ok invalid_input).
Proof.
  apply (proj2 (unconvertible_field [] no_repr missing_models
                  [("total_households", JStr "many")] "total_households"
                  (JStr "many") ValueError
                  ltac:(discriminate) (or_introl eq_refl) eq_refl eq_refl)).
  intros s. discriminate.
Defined.

Lemma only_three_fields_are_read_witness :
  predict_route [] no_repr (sample_models (Fin 600))
    (JDict (request_fields 1000 800 "Adyar" ++ [("ward_number", JInt 5)])%list)
  = predict_route [] no_repr (sample_models (Fin 600))
      (JDict [("zone_name", JStr " Adyar ");
              ("covered_households", JStr "800");
              ("total_households", JFloat (Fin (2001 # 2)))]).
Proof.
  apply (only_three_fields_are_read [] no_repr (sample_models (Fin 600)));
    [split; discriminate|reflexivity|reflexivity|reflexivity].
Defined.

Lemma missing_key_falls_back_witness :
  snd (predict_segregation (sample_models (Fin 600))
         {| Total_Households := Some 1000; Covered_Households := None;
            Zone_Name := Some "Adyar"; Ward_No := None |}) = Ok (Fin 0).
Proof.
  apply (proj2 (proj2 (missing_key_falls_back (sample_models (Fin 600))
           {| Total_Households := Some 1000; Covered_Households := None;
              Zone_Name := Some "Adyar"; Ward_No := None |}
           (or_intror (or_introl eq_refl))))).
  reflexivity.
Defined.

Lemma rate_is_a_percentage_witness :
  exists q, float_lit 6124 100 = Fin q /\ (0 <= q <= 100)%Q.
Proof.
  apply (rate_is_a_percentage ["Adyar"] no_repr
           (sample_models (Fin (3062 # 5))) (request 1000 800 "Anna Nagar")
           _ _ _ scenario_known_zone).
  vm_compute. discriminate.
Defined.

Lemma fallback_within_one_household_witness :
  exists log rate predicted,
    predict_route [] no_repr missing_models (request 1000 800 "Adyar") =
      (log, Ok (success rate predicted 1000 800 "Adyar")) /\
    7 * 800 / 10 - 1 <= predicted <= (7 * 800 + 9) / 10.
Proof.
  apply (fallback_within_one_household [] no_repr missing_models
           (request_fields 1000 800 "Adyar") 1000 800
           (OtherError "FileNotFoundError"));
    try reflexivity; lia.
Defined.





Lemma answers_are_classified_witness :
  exists log r,
    predict_route [] no_repr missing_models (request 0 0 "Adyar") = (log, Ok r) /\
    ((exists p i, r = Success p i) \/
     In r [no_input; invalid_input; non_positive_total; covered_out_of_range;
           unexpected_error] \/
     (r = prediction_failed OverflowError /\
      exists kv t, request 0 0 "Adyar" = JDict kv /\
        field_int kv "total_households" = Ok t /\ OVER <= t)).
Proof.
  exact (answers_are_classified [] no_repr missing_models
           (request 0 0 "Adyar")).
Defined.



Lemma health_reports_missing_files_witness :
  ((forall f, In f required_files -> only_data_csv f = true) /\
   health_check only_data_csv true =
     Healthy "healthy" true "1.0" endpoints) \/
  (exists missing,
     health_check only_data_csv true =
       Unhealthy "error" "Required files missing" missing /\
     missing <> [] /\ NoDup missing /\
     forall f, In f missing <->
               In f required_files /\ only_data_csv f = false).
Proof.
  exact (health_reports_missing_files only_data_csv true).
Defined.

Lemma missing_artifact_means_fallback_witness :
  exists log fc sr z,
    float_of_int 800 = Ok fc /\
    int_of_float (float_mul fc (float_lit 7 10)) = Ok z /\
    predict_route [] no_repr missing_models (request 1000 800 "Adyar") =
      (log, Ok (success sr z 1000 800 "Adyar")) /\
    7 * 800 / 10 - 1 <= z <= (7 * 800 + 9) / 10.
Proof.
  destruct (missing_artifact_means_fallback [] no_repr only_data_csv true
              missing_models "error" "Required files missing"
              ["saved_models/XGBoost.pkl"; "saved_models/zone_encoder.pkl";
               "saved_models/scaler.pkl"; "saved_models/columns.csv"]
              "saved_models/scaler.pkl"
              (request_fields 1000 800 "Adyar") 1000 800)
    as (log & fc & sr & z & H1 & H2 & H3 & H4);
    [reflexivity
    |right; right; left; reflexivity
    |discriminate
    |repeat split; intros _; eexists; reflexivity
    |reflexivity|reflexivity|lia|lia|reflexivity|].
  exists log, fc, sr, z. repeat (split; [assumption|]).
  apply H4. vm_compute. discriminate.
Defined.


Lemma city_rate_is_a_percentage_witness :
  exists q, city_rate 250 1000 = Ok (CFloat (Fin q)) /\ (0 <= q <= 100)%Q.
Proof.
  apply (proj2 (city_rate_is_a_percentage 250 1000)); lia.
Defined.

End AppFacts.
